(** * Calculadora-EPI3: the calculator engine (engine.js), embedded and verified

    The engine is a set of pure functions over an immutable state record.  It
    is modelled here function by function, in the order of the source (the
    revision of the engine that stages a percent in [rightLabel] and
    [rightValue]).  The
    JavaScript platform it calls into (IEEE-754 binary64 numbers, [Number],
    [Math.round], [Math.pow], [Number.prototype.toString],
    [Number.prototype.toLocaleString], a few [String] methods) is modelled
    first, following ECMA-262 / ECMA-402:

    - a Number is a [spec_float] of the Standard Library at precision 53 and
      maximal exponent 1024, with round-to-nearest-even arithmetic;
    - a String is a [string] of 8-bit characters (every string the engine
      builds is ASCII, so UTF-16 code units and bytes coincide);
    - [null] is [None]. *)

From Stdlib Require Import ZArith Bool List Lia.
From Stdlib Require Import Ascii String.
From Stdlib Require Import SpecFloat.
Import ListNotations.

Local Open Scope string_scope.
Local Open Scope Z_scope.

(** ** Numbers: IEEE-754 binary64 *)

Module Num.

Definition number := spec_float.

Definition prec : Z := 53.
Definition emax : Z := 1024.

Definition NaN : number := S754_nan.
Definition Infinity : number := S754_infinity false.
Definition zero : number := S754_zero false.

(** [Number.isFinite] *)
Definition isFinite (n : number) : bool :=
  match n with
  | S754_zero _ | S754_finite _ _ _ => true
  | S754_infinity _ | S754_nan => false
  end.

(** The operators [+], [-], [*], [/] on Numbers. *)
Definition add (a b : number) : number := SFadd prec emax a b.
Definition sub (a b : number) : number := SFsub prec emax a b.
Definition mul (a b : number) : number := SFmul prec emax a b.
Definition div (a b : number) : number := SFdiv prec emax a b.

(** Strict equality [===] on Numbers: [NaN] differs from everything, and
    [+0 === -0]. *)
Definition strict_eq (a b : number) : bool := SFeqb a b.

(** The Number nearest to the integer [z] (ties to even). *)
Definition of_Z (z : Z) : number := binary_normalize prec emax z 0 false.

(** The Number nearest to the rational [n / d] (ties to even), with sign
    [neg]; [n] and [d] are positive. *)
Definition of_ratio (neg : bool) (n d : positive) : number :=
  let '(mz, ez, lz) := SFdiv_core_binary prec emax (Zpos n) 0 (Zpos d) 0 in
  binary_round_aux prec emax neg mz ez lz.

(** The Number nearest to [m * 10^e]. *)
Definition of_decimal (neg : bool) (m : Z) (e : Z) : number :=
  match m with
  | Zpos p =>
      if 0 <=? e then of_ratio neg (p * Z.to_pos (10 ^ e)) 1
      else of_ratio neg p (Z.to_pos (10 ^ (- e)))
  | _ => S754_zero neg
  end.

(** The exact value of a finite nonzero Number, as a fraction [n / d] of its
    magnitude. *)
Definition magnitude (m : positive) (e : Z) : positive * positive :=
  if 0 <=? e then ((m * Z.to_pos (2 ^ e))%positive, 1%positive)
  else (m, Z.to_pos (2 ^ (- e))).

(** [Math.round]: the integer nearest to [x], ties towards [+Infinity];
    a result of zero keeps the sign of [x]. *)
Definition Math_round (x : number) : number :=
  match x with
  | S754_finite s m e =>
      if 0 <=? e then x
      else
        let k := - e in
        let v := if s then Zneg m else Zpos m in
        let r := Z.shiftr (2 * v + 2 ^ k) (k + 1) in
        if r =? 0 then S754_zero s else of_Z r
  | _ => x
  end.

(** [Math.pow], that is, [Number::exponentiate] of ECMA-262.  The special
    cases are the standard's.  For a finite nonzero base and a finite nonzero
    exponent the standard asks for an implementation-approximated result; the
    model returns the correctly rounded one, of which an engine may return a
    neighbour.  The exponent is a dyadic
    rational [k / 2^t], so the power is a [2^t]-th root of a rational, found
    by [t] integer square roots of a scaled numerator. *)
Definition is_integer (m : positive) (e : Z) : bool :=
  (0 <=? e) || (Zpos m mod 2 ^ (- e) =? 0).

Definition is_odd_integer (x : number) : bool :=
  match x with
  | S754_finite _ m e =>
      if 0 <? e then false
      else is_integer m e && Z.odd (Zpos m / 2 ^ (- e))
  | _ => false
  end.

Definition is_negative (x : number) : bool :=
  match x with
  | S754_zero s | S754_infinity s | S754_finite s _ _ => s
  | S754_nan => false
  end.

(** [m * 2^e] with the factors of two cancelled against a negative [e]. *)
Fixpoint lowest_terms (m : positive) (e : Z) : positive * Z :=
  match m with
  | xO p => if e <? 0 then lowest_terms p (e + 1) else (m, e)
  | _ => (m, e)
  end.

Definition pow_magnitude (neg : bool) (P Q mb0 : positive) (eb0 : Z)
    (neg_exp : bool) : number :=
  let '(mb, eb) := lowest_terms mb0 eb0 in
  let k := if 0 <=? eb then Zpos mb * 2 ^ eb else Zpos mb in
  let t := if 0 <=? eb then 0 else - eb in
  let Rn := if neg_exp then Zpos Q ^ k else Zpos P ^ k in
  let Rd := if neg_exp then Zpos P ^ k else Zpos Q ^ k in
  let L := (Z.log2 Rn - Z.log2 Rd - 1) / 2 ^ t in
  let s := 64 - L in
  let w := s * 2 ^ t in
  let num := if 0 <=? w then Rn * 2 ^ w else Rn in
  let den := if 0 <=? w then Rd else Rd * 2 ^ (- w) in
  let r := Z.iter t Z.sqrt (num / den) in
  let exact := r ^ (2 ^ t) * den =? num in
  binary_round_aux prec emax neg r (- s)
    (if exact then loc_Exact else loc_Inexact Lt).

Definition Math_pow (base exponent : number) : number :=
  match exponent, base with
  | S754_nan, _ => NaN
  | S754_zero _, _ => of_Z 1
  | _, S754_nan => NaN
  | _, S754_infinity false =>
      if is_negative exponent then S754_zero false else S754_infinity false
  | _, S754_infinity true =>
      if is_negative exponent then S754_zero (is_odd_integer exponent)
      else S754_infinity (is_odd_integer exponent)
  | _, S754_zero false =>
      if is_negative exponent then S754_infinity false else S754_zero false
  | _, S754_zero true =>
      if is_negative exponent then S754_infinity (is_odd_integer exponent)
      else S754_zero (is_odd_integer exponent)
  | S754_infinity se, S754_finite _ _ _ =>
      match SFcompare (SFabs base) (of_Z 1) with
      | Some Gt => if se then S754_zero false else S754_infinity false
      | Some Lt => if se then S754_infinity false else S754_zero false
      | _ => NaN
      end
  | S754_finite se mb eb, S754_finite sb m e =>
      if sb && negb (is_integer mb eb) then NaN
      else
        let '(m', e') := lowest_terms m e in
        let '(P, Q) := magnitude m' e' in
        pow_magnitude (sb && is_odd_integer exponent) P Q mb eb se
  end.

End Num.

(** ** Strings and the conversions between Strings and Numbers *)

Module Txt.
Import Num.

(** [s.includes(c)] for a one-character [c]. *)
Fixpoint includes (s : string) (c : ascii) : bool :=
  match s with
  | EmptyString => false
  | String x r => Ascii.eqb x c || includes r c
  end.

(** [s.startsWith(c)] for a one-character [c]. *)
Definition startsWith (s : string) (c : ascii) : bool :=
  match s with
  | String x _ => Ascii.eqb x c
  | EmptyString => false
  end.

(** [s.slice(1)] *)
Definition slice_from1 (s : string) : string :=
  match s with
  | String _ r => r
  | EmptyString => EmptyString
  end.

(** [s.slice(0, -1)] *)
Fixpoint slice_but_last (s : string) : string :=
  match s with
  | EmptyString => EmptyString
  | String _ EmptyString => EmptyString
  | String x r => String x (slice_but_last r)
  end.

Fixpoint str_take (n : nat) (s : string) : string :=
  match n, s with
  | S n', String x r => String x (str_take n' r)
  | _, _ => EmptyString
  end.

Fixpoint str_drop (n : nat) (s : string) : string :=
  match n, s with
  | S n', String _ r => str_drop n' r
  | _, _ => s
  end.

Fixpoint zeros (n : nat) : string :=
  match n with
  | O => EmptyString
  | S n' => String "0" (zeros n')
  end.

(** Every character of [s] satisfies [p]. *)
Fixpoint str_all (p : ascii -> bool) (s : string) : bool :=
  match s with
  | EmptyString => true
  | String x r => p x && str_all p r
  end.

Definition is_digit (c : ascii) : bool :=
  let n := nat_of_ascii c in (48 <=? n)%nat && (n <=? 57)%nat.

(** *** Decimal digits of an integer *)

Definition digit_char (d : Z) : ascii :=
  match Z.to_nat (d mod 10) with
  | 0%nat => "0" | 1%nat => "1" | 2%nat => "2" | 3%nat => "3" | 4%nat => "4"
  | 5%nat => "5" | 6%nat => "6" | 7%nat => "7" | 8%nat => "8" | _ => "9"
  end%char.

Fixpoint digits_fuel (fuel : nat) (z : Z) (acc : string) : string :=
  match fuel with
  | O => acc
  | S f =>
      let acc' := String (digit_char z) acc in
      if z <? 10 then acc' else digits_fuel f (z / 10) acc'
  end.

(** The decimal numeral of [z >= 0], most significant digit first; the
    numeral has at most [log2 z + 1] digits, which bounds the recursion. *)
Definition decimal (z : Z) : string :=
  digits_fuel (S (Z.to_nat (Z.log2 z))) z EmptyString.

(** [String(d)] for a digit key: the UI passes the numbers 0..9 (buttons) or
    the one-character strings of the digits (keyboard); both convert to the
    decimal numeral. *)
Definition String_ (d : nat) : string := decimal (Z.of_nat d).

(** *** StringToNumber: [Number(s)] *)

Definition is_ws (c : ascii) : bool :=
  let n := nat_of_ascii c in
  ((9 <=? n)%nat && (n <=? 13)%nat) || (n =? 32)%nat.

Fixpoint trim_left (s : string) : string :=
  match s with
  | String x r => if is_ws x then trim_left r else s
  | EmptyString => EmptyString
  end.

Fixpoint trim_right (s : string) : string :=
  match s with
  | EmptyString => EmptyString
  | String x r =>
      match trim_right r with
      | EmptyString => if is_ws x then EmptyString else String x EmptyString
      | r' => String x r'
      end
  end.

Definition digit_val (radix : Z) (c : ascii) : option Z :=
  let n := Z.of_nat (nat_of_ascii c) in
  let v :=
    if (48 <=? n) && (n <=? 57) then n - 48
    else if (97 <=? n) && (n <=? 102) then n - 87
    else if (65 <=? n) && (n <=? 70) then n - 55
    else radix in
  if v <? radix then Some v else None.

(** Reads the longest prefix of digits: its value on top of [acc], the number
    of digits read on top of [count], and the rest of the string. *)
Fixpoint read_digits (radix : Z) (s : string) (acc count : Z)
    : Z * Z * string :=
  match s with
  | String x r =>
      match digit_val radix x with
      | Some d => read_digits radix r (radix * acc + d) (count + 1)
      | None => (acc, count, s)
      end
  | EmptyString => (acc, count, s)
  end.

Definition is_empty (s : string) : bool :=
  match s with EmptyString => true | _ => false end.

(** The exponent part [e(+|-)?digits], or nothing. *)
Definition read_exponent (s : string) : option Z :=
  match s with
  | EmptyString => Some 0
  | String x r =>
      if Ascii.eqb x "e" || Ascii.eqb x "E" then
        let '(neg, r1) :=
          match r with
          | String y r' =>
              if Ascii.eqb y "-" then (true, r')
              else if Ascii.eqb y "+" then (false, r') else (false, r)
          | EmptyString => (false, r)
          end in
        let '(v, n, rest) := read_digits 10 r1 0 0 in
        if (0 <? n) && is_empty rest then Some (if neg then - v else v)
        else None
      else None
  end.

(** StrUnsignedDecimalLiteral with sign [neg] already read. *)
Definition read_decimal (neg : bool) (s : string) : number :=
  if String.eqb s "Infinity" then S754_infinity neg
  else
    let '(i, ni, r1) := read_digits 10 s 0 0 in
    let '(f, nf, r2) :=
      match r1 with
      | String x r => if Ascii.eqb x "." then read_digits 10 r i 0 else (i, 0, r1)
      | EmptyString => (i, 0, r1)
      end in
    if ni + nf =? 0 then NaN
    else
      match read_exponent r2 with
      | Some e => of_decimal neg f (e - nf)
      | None => NaN
      end.

(** [0x..], [0o..], [0b..] literals (no sign). *)
Definition read_radix (radix : Z) (s : string) : number :=
  let '(v, n, rest) := read_digits radix s 0 0 in
  if (0 <? n) && is_empty rest then of_Z v else NaN.

Definition Number (s : string) : number :=
  let t := trim_right (trim_left s) in
  match t with
  | EmptyString => zero
  | String x r =>
      if Ascii.eqb x "-" then read_decimal true r
      else if Ascii.eqb x "+" then read_decimal false r
      else
        match r with
        | String y r' =>
            if Ascii.eqb x "0" && (Ascii.eqb y "x" || Ascii.eqb y "X") then read_radix 16 r'
            else if Ascii.eqb x "0" && (Ascii.eqb y "o" || Ascii.eqb y "O") then read_radix 8 r'
            else if Ascii.eqb x "0" && (Ascii.eqb y "b" || Ascii.eqb y "B") then read_radix 2 r'
            else read_decimal false t
        | EmptyString => read_decimal false t
        end
  end.

(** *** Number::toString (radix 10) *)

(** [P / Q < 10^n] *)
Definition below_pow10 (P Q : positive) (n : Z) : bool :=
  if 0 <=? n then Zpos P <? Zpos Q * 10 ^ n
  else Zpos P * 10 ^ (- n) <? Zpos Q.

Fixpoint first_pow10_above (fuel : nat) (P Q : positive) (n : Z) : Z :=
  match fuel with
  | O => n
  | S f => if below_pow10 P Q n then n else first_pow10_above f P Q (n + 1)
  end.

(** The [n] with [10^(n-1) <= P/Q < 10^n]: a lower estimate from the binary
    logarithms, then at most a few steps up. *)
Definition decimal_exponent (P Q : positive) : Z :=
  let est := (Z.log2 (Zpos P) - Z.log2 (Zpos Q) - 1) * 30103 / 100000 - 1 in
  first_pow10_above 8 P Q est.

(** [floor ((P/Q) / 10^q)] *)
Definition scaled_floor (P Q : positive) (q : Z) : Z :=
  if 0 <=? q then Zpos P / (Zpos Q * 10 ^ q)
  else (Zpos P * 10 ^ (- q)) / Zpos Q.

(** Compares [2 * P/Q] with [c * 10^q]. *)
Definition twice_compare (P Q : positive) (c q : Z) : comparison :=
  if 0 <=? q then (2 * Zpos P ?= c * 10 ^ q * Zpos Q)
  else (2 * Zpos P * 10 ^ (- q) ?= c * Zpos Q).

(** The [k]-digit integers [s] with [s * 10^(n-k)] rounding to [x]: the one
    nearest to [x] (the even one on a tie), with its [n]. *)
Definition pick_digits (x : number) (P Q : positive) (n0 k : Z)
    : option (Z * Z) :=
  let q := n0 - k in
  let lo := scaled_floor P Q q in
  let hi := lo + 1 in
  let norm s := if s =? 10 ^ k then (10 ^ (k - 1), n0 + 1) else (s, n0) in
  match SFeqb (of_decimal false lo q) x, SFeqb (of_decimal false hi q) x with
  | true, true =>
      match twice_compare P Q (2 * lo + 1) q with
      | Lt => Some (norm lo)
      | Gt => Some (norm hi)
      | Eq => Some (norm (if Z.even lo then lo else hi))
      end
  | true, false => Some (norm lo)
  | false, true => Some (norm hi)
  | false, false => None
  end.

(** The least [k] for which [pick_digits] succeeds.  Seventeen digits
    identify every binary64 value. *)
Fixpoint shortest (fuel : nat) (x : number) (P Q : positive) (n0 k : Z)
    : Z * Z :=
  match pick_digits x P Q n0 k with
  | Some r => r
  | None =>
      match fuel with
      | O => (scaled_floor P Q (n0 - k), n0)
      | S f => shortest f x P Q n0 (k + 1)
      end
  end.

(** The digits [ds] of [s] laid out for the decimal exponent [n]. *)
Definition layout (ds : string) (n : Z) : string :=
  let k := Z.of_nat (length ds) in
  if (-6 <? n) && (n <=? 21) then
    if k <=? n then ds ++ zeros (Z.to_nat (n - k))
    else if 0 <? n then
      str_take (Z.to_nat n) ds ++ "." ++ str_drop (Z.to_nat n) ds
    else "0." ++ zeros (Z.to_nat (- n)) ++ ds
  else
    let e := n - 1 in
    let es := (if 0 <=? e then "+" else "-") ++ decimal (Z.abs e) in
    if k =? 1 then ds ++ "e" ++ es
    else str_take 1 ds ++ "." ++ str_drop 1 ds ++ "e" ++ es.

Definition Number_toString (x : number) : string :=
  match x with
  | S754_nan => "NaN"
  | S754_zero _ => "0"
  | S754_infinity s => if s then "-Infinity" else "Infinity"
  | S754_finite s m e =>
      let '(P, Q) := magnitude m e in
      let '(d, n) :=
        shortest 16 (S754_finite false m e) P Q (decimal_exponent P Q) 1 in
      (if s then "-" else "") ++ layout (decimal d) n
  end.

(** *** Number.prototype.toLocaleString('en-US', [{maximumSignificantDigits}])

    The value is shown with at most [p] significant digits, trailing zeros
    of the fraction are dropped, and the integer part is grouped by
    thousands with commas.  ECMA-402 words the rounding on the value; the
    engines round the decimal digits of the Number, the shortest that
    identify it (those [toString] prints), half away from zero, and the
    model does as the engines do: the two differ when those digits end in a
    5 right after the last digit kept.  [formatNumber] calls it on finite
    nonzero values only (those whose [toString] has an exponent). *)

Fixpoint strip_zeros (s : string) : string :=
  match s with
  | EmptyString => EmptyString
  | String x r =>
      match strip_zeros r with
      | EmptyString =>
          if Ascii.eqb x "0" then EmptyString else String x EmptyString
      | r' => String x r'
      end
  end.

Fixpoint group (s : string) : string :=
  match s with
  | EmptyString => EmptyString
  | String x r =>
      String x
        (if negb (is_empty r) && (length r mod 3 =? 0)%nat
         then "," ++ group r else group r)
  end.

Definition significant (p : Z) (x : number) (P Q : positive) : string * Z :=
  let '(d, n0) := shortest 16 x P Q (decimal_exponent P Q) 1 in
  let k := Z.of_nat (length (decimal d)) in
  let r := if p <? k then (d + 5 * 10 ^ (k - p - 1)) / 10 ^ (k - p) else d in
  let '(r, n) := if r =? 10 ^ p then (10 ^ (p - 1), n0 + 1) else (r, n0) in
  (strip_zeros (decimal r), n).

Definition toLocaleString_enUS (maximumSignificantDigits : Z) (x : number)
    : string :=
  match x with
  | S754_nan => "NaN"
  | S754_zero s => if s then "-0" else "0"
  | S754_infinity s => if s then "-∞" else "∞"
  | S754_finite s m e =>
      let '(P, Q) := magnitude m e in
      let '(ds, n) :=
        significant maximumSignificantDigits (S754_finite false m e) P Q in
      let k := Z.of_nat (length ds) in
      (if s then "-" else "") ++
      (if n <=? 0 then "0." ++ zeros (Z.to_nat (- n)) ++ ds
       else if k <=? n then group (ds ++ zeros (Z.to_nat (n - k)))
       else group (str_take (Z.to_nat n) ds) ++ "." ++ str_drop (Z.to_nat n) ds)
  end.

(** *** [String.prototype.replace] with the two patterns of [formatNumber] *)

Fixpoint all_zeros (s : string) : bool :=
  match s with
  | EmptyString => true
  | String x r => Ascii.eqb x "0" && all_zeros r
  end.

Fixpoint ends_with_zero (s : string) : bool :=
  match s with
  | EmptyString => false
  | String x EmptyString => Ascii.eqb x "0"
  | String _ r => ends_with_zero r
  end.

(** [s.replace(/\.0+$/, '')]: the leftmost point followed by zeros only, up
    to the end, is removed with them. *)
Fixpoint replace_point_zeros (s : string) : string :=
  match s with
  | EmptyString => EmptyString
  | String x r =>
      if Ascii.eqb x "." && negb (is_empty r) && all_zeros r then EmptyString
      else String x (replace_point_zeros r)
  end.

(** [s.replace(/(\.\d*?)0+$/, '$1')]: after the leftmost point followed by
    digits only and ending in a zero, the trailing zeros are removed. *)
Fixpoint replace_trailing_zeros (s : string) : string :=
  match s with
  | EmptyString => EmptyString
  | String x r =>
      if Ascii.eqb x "." && str_all is_digit r && ends_with_zero r
      then String x (strip_zeros r)
      else String x (replace_trailing_zeros r)
  end.

End Txt.

(** ** The engine *)

Import Num Txt.

(** JavaScript truthiness of a value that is a string or [null]: [null] and
    the empty string are falsy. *)
Definition truthy (v : option string) : bool :=
  match v with
  | Some s => negb (is_empty s)
  | None => false
  end.

(** The string behind a value already tested truthy. *)
Definition str_of (v : option string) : string :=
  match v with
  | Some s => s
  | None => EmptyString
  end.

(** [v ?? d] *)
Definition nullish {A : Type} (v : option A) (d : A) : A :=
  match v with
  | Some a => a
  | None => d
  end.

Record State : Type := mkState {
  display : string;
  prev : option number;
  op : option string;
  overwrite : bool;
  lastOp : option string;
  lastOperand : option number;
  error : bool;
  rightLabel : option string;
  rightValue : option number
}.

Definition createInitialState : State :=
  {| display := "0";
     prev := None;
     op := None;
     overwrite := false;
     lastOp := None;
     lastOperand := None;
     error := false;
     rightLabel := None;
     rightValue := None |}.

Definition toNumber (s : string) : number :=
  let n := Number s in
  if isFinite n then n else zero.

Definition formatNumber (n : number) : string :=
  if negb (isFinite n) then "Error"
  else
    let s := div (Math_round (mul n (of_Z 1000000000000))) (of_Z 1000000000000) in
    let str := Number_toString s in
    if includes str "e" then toLocaleString_enUS 12 s
    else if includes str "." then
      replace_trailing_zeros (replace_point_zeros str)
    else str.

Definition compute (a b : number) (op : string) : number :=
  if String.eqb op "+" then add a b
  else if String.eqb op "-" then sub a b
  else if String.eqb op "*" then mul a b
  else if String.eqb op "/" then
    (if strict_eq b zero then Infinity else div a b)
  else if String.eqb op "^" then Math_pow a b
  else b.

Definition inputDigit (state : State) (d : nat) : State :=
  if error state then createInitialState
  else if overwrite state || String.eqb (display state) "0" then
    {| display := String_ d;
       prev := prev state;
       op := op state;
       overwrite := false;
       lastOp := lastOp state;
       lastOperand := lastOperand state;
       error := error state;
       rightLabel := None;
       rightValue := None |}
  else if (16 <=? length (display state))%nat then state
  else
    {| display := display state ++ String_ d;
       prev := prev state;
       op := op state;
       overwrite := overwrite state;
       lastOp := lastOp state;
       lastOperand := lastOperand state;
       error := error state;
       rightLabel := None;
       rightValue := None |}.

Definition inputDot (state : State) : State :=
  if error state then createInitialState
  else if overwrite state then
    {| display := "0.";
       prev := prev state;
       op := op state;
       overwrite := false;
       lastOp := lastOp state;
       lastOperand := lastOperand state;
       error := error state;
       rightLabel := None;
       rightValue := None |}
  else if includes (display state) "." then state
  else
    {| display := display state ++ ".";
       prev := prev state;
       op := op state;
       overwrite := overwrite state;
       lastOp := lastOp state;
       lastOperand := lastOperand state;
       error := error state;
       rightLabel := None;
       rightValue := None |}.

(** [state.rightLabel && state.rightValue != null ? state.rightValue
     : toNumber(state.display)] *)
Definition staged_or_display (state : State) : number :=
  if truthy (rightLabel state)
  then nullish (rightValue state) (toNumber (display state))
  else toNumber (display state).

Definition setOperator (state : State) (op' : string) : State :=
  if error state then createInitialState
  else if truthy (op state) && negb (overwrite state) then
    let a := nullish (prev state) (toNumber (display state)) in
    let b := staged_or_display state in
    let res := compute a b (str_of (op state)) in
    let formatted := formatNumber res in
    let err := String.eqb formatted "Error" in
    {| display := formatted;
       prev := if err then None else Some res;
       op := Some op';
       overwrite := true;
       lastOp := if err then None else op state;
       lastOperand := if err then None else Some b;
       error := err;
       rightLabel := None;
       rightValue := None |}
  else
    {| display := display state;
       prev := Some (staged_or_display state);
       op := Some op';
       overwrite := true;
       lastOp := lastOp state;
       lastOperand := lastOperand state;
       error := error state;
       rightLabel := None;
       rightValue := None |}.

Definition toggled (s : string) : string :=
  if startsWith s "-" then slice_from1 s else "-" ++ s.

Definition with_display (state : State) (s : string) : State :=
  {| display := s;
     prev := prev state;
     op := op state;
     overwrite := overwrite state;
     lastOp := lastOp state;
     lastOperand := lastOperand state;
     error := error state;
     rightLabel := rightLabel state;
     rightValue := rightValue state |}.

Definition toggleSign (state : State) : State :=
  if error state then createInitialState
  else if String.eqb (display state) "0" then state
  else if overwrite state then with_display state (toggled (display state))
  else with_display state (toggled (display state)).

Definition backspace (state : State) : State :=
  if error state then createInitialState
  else if overwrite state then
    {| display := "0";
       prev := prev state;
       op := op state;
       overwrite := false;
       lastOp := lastOp state;
       lastOperand := lastOperand state;
       error := error state;
       rightLabel := rightLabel state;
       rightValue := rightValue state |}
  else if (length (display state) <=? 1)%nat
          || ((length (display state) =? 2)%nat
              && startsWith (display state) "-")
  then with_display state "0"
  else with_display state (slice_but_last (display state)).

Definition clearAll : State := createInitialState.

Definition evaluate (state : State) : State :=
  if error state then createInitialState
  else if truthy (op state) && truthy (rightLabel state) then
    let a := nullish (prev state) (toNumber (display state)) in
    let b := nullish (rightValue state) (toNumber (display state)) in
    let res := compute a b (str_of (op state)) in
    let formatted := formatNumber res in
    let err := String.eqb formatted "Error" in
    {| display := formatted;
       prev := if err then None else Some res;
       op := None;
       overwrite := true;
       lastOp := if err then None else op state;
       lastOperand := if err then None else Some b;
       error := err;
       rightLabel := None;
       rightValue := None |}
  else if negb (truthy (op state)) && truthy (rightLabel state) then
    let b := nullish (rightValue state)
               (div (toNumber (display state)) (of_Z 100)) in
    let formatted := formatNumber b in
    let err := String.eqb formatted "Error" in
    {| display := formatted;
       prev := if err then None else Some b;
       op := None;
       overwrite := true;
       lastOp := None;
       lastOperand := None;
       error := err;
       rightLabel := None;
       rightValue := None |}
  else if truthy (op state) then
    let a := nullish (prev state) (toNumber (display state)) in
    let b := staged_or_display state in
    let res := compute a b (str_of (op state)) in
    let formatted := formatNumber res in
    let err := String.eqb formatted "Error" in
    {| display := formatted;
       prev := if err then None else Some res;
       op := None;
       overwrite := true;
       lastOp := if err then None else op state;
       lastOperand := if err then None else Some b;
       error := err;
       rightLabel := None;
       rightValue := None |}
  else
    match lastOperand state with
    | Some operand =>
        if truthy (lastOp state) then
          let a := toNumber (display state) in
          let res := compute a operand (str_of (lastOp state)) in
          let formatted := formatNumber res in
          let err := String.eqb formatted "Error" in
          {| display := formatted;
             prev := if err then None else Some res;
             op := None;
             overwrite := true;
             lastOp := if err then None else lastOp state;
             lastOperand := if err then None else lastOperand state;
             error := err;
             rightLabel := None;
             rightValue := None |}
        else state
    | None => state
    end.

Definition percent (state : State) : State :=
  if error state then createInitialState
  else
    let cur := toNumber (display state) in
    let val :=
      if truthy (op state) then
        if String.eqb (str_of (op state)) "*"
           || String.eqb (str_of (op state)) "/"
        then div cur (of_Z 100)
        else
          let base := nullish (prev state) (toNumber (display state)) in
          div (mul base cur) (of_Z 100)
      else div cur (of_Z 100) in
    let formatted := formatNumber val in
    let err := String.eqb formatted "Error" in
    {| display := display state;
       prev := prev state;
       op := op state;
       overwrite := true;
       lastOp := lastOp state;
       lastOperand := lastOperand state;
       error := err;
       rightLabel := Some (formatNumber cur ++ "%");
       rightValue := Some val |}.

(** The object [preview] returns.  [a] is [null] and [op] is [null] for a
    standalone percent; [bLabel] is absent ([None]) for the kinds [binary]
    and [repeat]. *)
Record Preview : Type := mkPreview {
  p_a : option number;
  p_b : number;
  p_bLabel : option string;
  p_op : option string;
  p_result : number;
  p_resultStr : string;
  p_error : bool;
  p_kind : string
}.

Definition preview (state : State) : option Preview :=
  if truthy (op state) then
    if truthy (rightLabel state) then
      let a := nullish (prev state) (toNumber (display state)) in
      let b := nullish (rightValue state) (toNumber (display state)) in
      let str := formatNumber b in
      let err := String.eqb str "Error" in
      Some {| p_a := Some a; p_b := b; p_bLabel := rightLabel state;
              p_op := op state; p_result := b; p_resultStr := str;
              p_error := err; p_kind := "percent" |}
    else
      let a := nullish (prev state) (toNumber (display state)) in
      let b := toNumber (display state) in
      let res := compute a b (str_of (op state)) in
      let str := formatNumber res in
      let err := String.eqb str "Error" in
      Some {| p_a := Some a; p_b := b; p_bLabel := None;
              p_op := op state; p_result := res; p_resultStr := str;
              p_error := err; p_kind := "binary" |}
  else if truthy (rightLabel state) && negb (truthy (op state)) then
    let b := nullish (rightValue state)
               (div (toNumber (display state)) (of_Z 100)) in
    let str := formatNumber b in
    let err := String.eqb str "Error" in
    Some {| p_a := None; p_b := b; p_bLabel := rightLabel state;
            p_op := None; p_result := b; p_resultStr := str;
            p_error := err; p_kind := "percentUnary" |}
  else
    match lastOperand state with
    | Some b =>
        if truthy (lastOp state) then
          let a := toNumber (display state) in
          let res := compute a b (str_of (lastOp state)) in
          let str := formatNumber res in
          let err := String.eqb str "Error" in
          Some {| p_a := Some a; p_b := b; p_bLabel := None;
                  p_op := lastOp state; p_result := res; p_resultStr := str;
                  p_error := err; p_kind := "repeat" |}
        else None
    | None => None
    end.

(** ** Key presses: the transitions the UI shell dispatches *)

Inductive Key : Type :=
  | KDigit (d : nat)
  | KDot
  | KOperator (o : string)
  | KToggleSign
  | KBackspace
  | KClearAll
  | KEvaluate
  | KPercent.

Definition press (state : State) (k : Key) : State :=
  match k with
  | KDigit d => inputDigit state d
  | KDot => inputDot state
  | KOperator o => setOperator state o
  | KToggleSign => toggleSign state
  | KBackspace => backspace state
  | KClearAll => clearAll
  | KEvaluate => evaluate state
  | KPercent => percent state
  end.

(** The state after a sequence of key presses, from the initial state. *)
Definition run (keys : list Key) : State :=
  fold_left press keys createInitialState.

(** ** Notions used by the statements *)

(** The situations in which [setOperator] or [evaluate] computes a binary
    result: [computes_binary state state' res] holds when the transition from
    [state] to [state'] goes through a branch that calls [compute], and [res]
    is what that call returns. *)
Inductive computes_binary (state : State) : State -> number -> Prop :=
  | chaining (o : string) :
      truthy (op state) = true ->
      overwrite state = false ->
      computes_binary state (setOperator state o)
        (compute (nullish (prev state) (toNumber (display state)))
                 (staged_or_display state) (str_of (op state)))
  | pending :
      truthy (op state) = true ->
      computes_binary state (evaluate state)
        (compute (nullish (prev state) (toNumber (display state)))
                 (staged_or_display state) (str_of (op state)))
  | repeating (operand : number) :
      truthy (op state) = false ->
      truthy (rightLabel state) = false ->
      truthy (lastOp state) = true ->
      lastOperand state = Some operand ->
      computes_binary state (evaluate state)
        (compute (toNumber (display state)) operand (str_of (lastOp state))).

(** Keys of digit entry and deletion. *)
Definition entry_key (k : Key) : Prop :=
  match k with
  | KDigit d => (d <= 9)%nat
  | KBackspace | KClearAll => True
  | _ => False
  end.

(** The string begins with two minus signs. *)
Definition double_minus (s : string) : bool :=
  startsWith s "-" && startsWith (slice_from1 s) "-".

(** Key sequences of the scenarios below. *)
Definition sixteen_nines : list Key := repeat (KDigit 9) 16.

Definition keys_large_product : list Key :=
  sixteen_nines ++ [KOperator "*"] ++ sixteen_nines ++ [KEvaluate].

Definition keys_200_plus_10_percent : list Key :=
  [KDigit 2; KDigit 0; KDigit 0; KOperator "+"; KDigit 1; KDigit 0; KPercent].

Definition keys_minus_zero : list Key := [KDot; KToggleSign; KBackspace].

Definition keys_division_by_zero : list Key :=
  [KDigit 1; KOperator "/"; KDigit 0; KEvaluate].

Definition keys_7_plus_3 : list Key := [KDigit 7; KOperator "+"; KDigit 3].

Definition keys_200_plus_10 : list Key :=
  [KDigit 2; KDigit 0; KDigit 0; KOperator "+"; KDigit 1; KDigit 0].

Definition keys_seventeen : list Key := repeat (KDigit 1) 16 ++ [KDot].

(** ** The earlier revision of the engine

    The source holds two revisions of the engine.  The earlier one writes a
    percent into the display and has no [rightValue]; [toNumber],
    [formatNumber] and [compute] are the same text in both revisions and are
    shared here. *)

Module Rev1.

Record State : Type := mkState {
  display : string;
  prev : option number;
  op : option string;
  overwrite : bool;
  lastOp : option string;
  lastOperand : option number;
  error : bool;
  rightLabel : option string
}.

Definition createInitialState : State :=
  {| display := "0";
     prev := None;
     op := None;
     overwrite := false;
     lastOp := None;
     lastOperand := None;
     error := false;
     rightLabel := None |}.

Definition inputDigit (state : State) (d : nat) : State :=
  if error state then createInitialState
  else if overwrite state || String.eqb (display state) "0" then
    {| display := String_ d;
       prev := prev state;
       op := op state;
       overwrite := false;
       lastOp := lastOp state;
       lastOperand := lastOperand state;
       error := error state;
       rightLabel := None |}
  else if (16 <=? length (display state))%nat then state
  else
    {| display := display state ++ String_ d;
       prev := prev state;
       op := op state;
       overwrite := overwrite state;
       lastOp := lastOp state;
       lastOperand := lastOperand state;
       error := error state;
       rightLabel := None |}.

Definition inputDot (state : State) : State :=
  if error state then createInitialState
  else if overwrite state then
    {| display := "0.";
       prev := prev state;
       op := op state;
       overwrite := false;
       lastOp := lastOp state;
       lastOperand := lastOperand state;
       error := error state;
       rightLabel := None |}
  else if includes (display state) "." then state
  else
    {| display := display state ++ ".";
       prev := prev state;
       op := op state;
       overwrite := overwrite state;
       lastOp := lastOp state;
       lastOperand := lastOperand state;
       error := error state;
       rightLabel := None |}.

Definition setOperator (state : State) (op' : string) : State :=
  if error state then createInitialState
  else if truthy (op state) && negb (overwrite state) then
    let a := nullish (prev state) (toNumber (display state)) in
    let b := toNumber (display state) in
    let res := compute a b (str_of (op state)) in
    let formatted := formatNumber res in
    let err := String.eqb formatted "Error" in
    {| display := formatted;
       prev := if err then None else Some res;
       op := Some op';
       overwrite := true;
       lastOp := if err then None else op state;
       lastOperand := if err then None else Some b;
       error := err;
       rightLabel := None |}
  else
    {| display := display state;
       prev := Some (toNumber (display state));
       op := Some op';
       overwrite := true;
       lastOp := lastOp state;
       lastOperand := lastOperand state;
       error := error state;
       rightLabel := None |}.

Definition with_display (state : State) (s : string) : State :=
  {| display := s;
     prev := prev state;
     op := op state;
     overwrite := overwrite state;
     lastOp := lastOp state;
     lastOperand := lastOperand state;
     error := error state;
     rightLabel := rightLabel state |}.

Definition toggleSign (state : State) : State :=
  if error state then createInitialState
  else if String.eqb (display state) "0" then state
  else if overwrite state then with_display state (toggled (display state))
  else with_display state (toggled (display state)).

Definition backspace (state : State) : State :=
  if error state then createInitialState
  else if overwrite state then
    {| display := "0";
       prev := prev state;
       op := op state;
       overwrite := false;
       lastOp := lastOp state;
       lastOperand := lastOperand state;
       error := error state;
       rightLabel := rightLabel state |}
  else if (length (display state) <=? 1)%nat
          || ((length (display state) =? 2)%nat
              && startsWith (display state) "-")
  then with_display state "0"
  else with_display state (slice_but_last (display state)).

Definition clearAll : State := createInitialState.

Definition evaluate (state : State) : State :=
  if error state then createInitialState
  else if truthy (rightLabel state) && truthy (op state) then
    let val := toNumber (display state) in
    let formatted := formatNumber val in
    let err := String.eqb formatted "Error" in
    {| display := formatted;
       prev := if err then None else Some val;
       op := None;
       overwrite := true;
       lastOp := None;
       lastOperand := None;
       error := err;
       rightLabel := None |}
  else if truthy (op state) then
    let a := nullish (prev state) (toNumber (display state)) in
    let b := toNumber (display state) in
    let res := compute a b (str_of (op state)) in
    let formatted := formatNumber res in
    let err := String.eqb formatted "Error" in
    {| display := formatted;
       prev := if err then None else Some res;
       op := None;
       overwrite := true;
       lastOp := if err then None else op state;
       lastOperand := if err then None else Some b;
       error := err;
       rightLabel := None |}
  else
    match lastOperand state with
    | Some operand =>
        if truthy (lastOp state) then
          let a := toNumber (display state) in
          let res := compute a operand (str_of (lastOp state)) in
          let formatted := formatNumber res in
          let err := String.eqb formatted "Error" in
          {| display := formatted;
             prev := if err then None else Some res;
             op := None;
             overwrite := true;
             lastOp := if err then None else lastOp state;
             lastOperand := if err then None else lastOperand state;
             error := err;
             rightLabel := None |}
        else state
    | None => state
    end.

(** [state.prev != null && state.op] *)
Definition has_operation (state : State) : bool :=
  match prev state with
  | Some _ => truthy (op state)
  | None => false
  end.

Definition percent (state : State) : State :=
  if error state then createInitialState
  else
    let cur := toNumber (display state) in
    let val :=
      match prev state with
      | Some p =>
          if truthy (op state) then div (mul p cur) (of_Z 100)
          else div cur (of_Z 100)
      | None => div cur (of_Z 100)
      end in
    let formatted := formatNumber val in
    let err := String.eqb formatted "Error" in
    {| display := formatted;
       prev := prev state;
       op := op state;
       overwrite := true;
       lastOp := lastOp state;
       lastOperand := lastOperand state;
       error := err;
       rightLabel :=
         if has_operation state then Some (formatNumber cur ++ "%")
         else None |}.

Definition preview (state : State) : option Preview :=
  if truthy (op state) then
    if truthy (rightLabel state) then
      let a := nullish (prev state) (toNumber (display state)) in
      let res := toNumber (display state) in
      let str := formatNumber res in
      let err := String.eqb str "Error" in
      Some {| p_a := Some a; p_b := res; p_bLabel := rightLabel state;
              p_op := op state; p_result := res; p_resultStr := str;
              p_error := err; p_kind := "percent" |}
    else
      let a := nullish (prev state) (toNumber (display state)) in
      let b := toNumber (display state) in
      let res := compute a b (str_of (op state)) in
      let str := formatNumber res in
      let err := String.eqb str "Error" in
      Some {| p_a := Some a; p_b := b; p_bLabel := None;
              p_op := op state; p_result := res; p_resultStr := str;
              p_error := err; p_kind := "binary" |}
  else
    match lastOperand state with
    | Some b =>
        if truthy (lastOp state) then
          let a := toNumber (display state) in
          let res := compute a b (str_of (lastOp state)) in
          let str := formatNumber res in
          let err := String.eqb str "Error" in
          Some {| p_a := Some a; p_b := b; p_bLabel := None;
                  p_op := lastOp state; p_result := res; p_resultStr := str;
                  p_error := err; p_kind := "repeat" |}
        else None
    | None => None
    end.

Definition press (state : State) (k : Key) : State :=
  match k with
  | KDigit d => inputDigit state d
  | KDot => inputDot state
  | KOperator o => setOperator state o
  | KToggleSign => toggleSign state
  | KBackspace => backspace state
  | KClearAll => clearAll
  | KEvaluate => evaluate state
  | KPercent => percent state
  end.

Definition run (keys : list Key) : State :=
  fold_left press keys createInitialState.

End Rev1.

(** A state of the later revision seen as one of the earlier: [rightValue]
    is dropped. *)
Definition forget (state : State) : Rev1.State :=
  {| Rev1.display := display state;
     Rev1.prev := prev state;
     Rev1.op := op state;
     Rev1.overwrite := overwrite state;
     Rev1.lastOp := lastOp state;
     Rev1.lastOperand := lastOperand state;
     Rev1.error := error state;
     Rev1.rightLabel := rightLabel state |}.

Definition percent_free (k : Key) : Prop :=
  match k with
  | KPercent => False
  | _ => True
  end.

(** ** The UI shell (Calculator.jsx)

    The component holds the engine state, the history log, the pending
    unary function and the degrees flag, and dispatches one handler per
    event; events are handled one at a time, each on the state the previous
    one left.  The flags [sci] and [showHistory] and the accent hue only
    affect rendering and are left out.

    [Math.exp], [Math.log], [Math.log10], [Math.sin], [Math.cos] and
    [Math.tan] are implementation-approximated in ECMA-262: they are taken
    as a parameter [MathLib], and whatever is proved holds for every
    library.  [Math.sqrt] is the correctly rounded IEEE-754 square root. *)

Module Shell.

(** The names [stageUnary] is called with, which are also the keys of
    [unaryLabels]; [pendingUnary] is one of them or [null]. *)
Inductive Unary : Type :=
  | square | sqrt | recip | exp | ln | log | sin | cos | tan.

Record MathLib : Type := {
  Math_exp : number -> number;
  Math_log : number -> number;
  Math_log10 : number -> number;
  Math_sin : number -> number;
  Math_cos : number -> number;
  Math_tan : number -> number
}.

Definition Math_sqrt (x : number) : number := SFsqrt prec emax x.
Definition Math_PI : number := Number "3.141592653589793".
Definition Math_E : number := Number "2.718281828459045".

(** The [switch (pendingUnary)] of [onEqual] and [pickOperator]. *)
Definition unary_result (M : MathLib) (deg : bool) (fn : Unary) (x : number)
    : number :=
  let angle := if deg then div (mul x Math_PI) (of_Z 180) else x in
  match fn with
  | square => mul x x
  | sqrt => if SFltb x zero then Infinity else Math_sqrt x
  | recip => if strict_eq x zero then Infinity else div (of_Z 1) x
  | exp => Math_exp M x
  | ln => if SFleb x zero then Infinity else Math_log M x
  | log => if SFleb x zero then Infinity else Math_log10 M x
  | sin => Math_sin M angle
  | cos => Math_cos M angle
  | tan => Math_tan M angle
  end.

Definition unaryLabels (fn : Unary) (x : string) : string :=
  match fn with
  | square => "sqr(" ++ x ++ ")"
  | sqrt => "√(" ++ x ++ ")"
  | recip => "1/(" ++ x ++ ")"
  | exp => "e^(" ++ x ++ ")"
  | ln => "ln(" ++ x ++ ")"
  | log => "log(" ++ x ++ ")"
  | sin => "sin(" ++ x ++ ")"
  | cos => "cos(" ++ x ++ ")"
  | tan => "tan(" ++ x ++ ")"
  end.

Record Shell : Type := mkShell {
  state : State;
  deg : bool;
  history : list string;
  pendingUnary : option Unary
}.

Definition initial : Shell :=
  {| state := createInitialState; deg := true; history := [];
     pendingUnary := None |}.

Definition tapeText (s : State) : string :=
  if error s then "Error"
  else
    match prev s with
    | Some l =>
        if truthy (op s) then Number_toString l ++ " " ++ str_of (op s)
        else EmptyString
    | None => EmptyString
    end.

(** [formatNumber(v)] for a value that may be [null]: [Number.isFinite(null)]
    is false, so [null] formats as "Error". *)
Definition formatNumber_nullable (v : option number) : string :=
  match v with
  | Some n => formatNumber n
  | None => "Error"
  end.

(** A string or [null] inside a template literal. *)
Definition template (v : option string) : string :=
  match v with
  | Some s => s
  | None => "null"
  end.

(** The history line of a binary evaluation:
    [`${formatNumber(p.a)} ${p.op} ${formatNumber(p.b)} = ${next.display}`] *)
Definition history_line (p : Preview) (next : State) : string :=
  formatNumber_nullable (p_a p) ++ " " ++ template (p_op p) ++ " "
  ++ formatNumber (p_b p) ++ " = " ++ display next.

Definition with_state (sh : Shell) (s : State) : Shell :=
  {| state := s; deg := deg sh; history := history sh;
     pendingUnary := pendingUnary sh |}.

Definition onEqual (M : MathLib) (sh : Shell) : Shell :=
  match pendingUnary sh with
  | Some fn =>
      let argStr := display (state sh) in
      let x := Number argStr in
      let y := unary_result M (deg sh) fn x in
      let resStr := formatNumber y in
      {| state :=
           {| display := resStr;
              prev := prev (state sh);
              op := op (state sh);
              overwrite := true;
              lastOp := lastOp (state sh);
              lastOperand := lastOperand (state sh);
              error := String.eqb resStr "Error";
              rightLabel := rightLabel (state sh);
              rightValue := rightValue (state sh) |};
         deg := deg sh;
         history :=
           (unaryLabels fn (formatNumber x) ++ " = " ++ resStr) :: history sh;
         pendingUnary := None |}
  | None =>
      let p := preview (state sh) in
      let next := evaluate (state sh) in
      {| state := next;
         deg := deg sh;
         history :=
           match p with
           | Some p => history_line p next :: history sh
           | None => history sh
           end;
         pendingUnary := None |}
  end.

Definition stageUnary (sh : Shell) (fn : Unary) : Shell :=
  {| state :=
       {| display := display (state sh);
          prev := prev (state sh);
          op := op (state sh);
          overwrite := true;
          lastOp := lastOp (state sh);
          lastOperand := lastOperand (state sh);
          error := error (state sh);
          rightLabel := rightLabel (state sh);
          rightValue := rightValue (state sh) |};
     deg := deg sh;
     history := history sh;
     pendingUnary := Some fn |}.

Definition setConst (sh : Shell) (val : number) : Shell :=
  with_state sh
    {| display := formatNumber val;
       prev := prev (state sh);
       op := op (state sh);
       overwrite := true;
       lastOp := lastOp (state sh);
       lastOperand := lastOperand (state sh);
       error := error (state sh);
       rightLabel := rightLabel (state sh);
       rightValue := rightValue (state sh) |}.

Definition pickOperator (M : MathLib) (sh : Shell) (o : string) : Shell :=
  match pendingUnary sh with
  | Some fn =>
      let argStr := display (state sh) in
      let x := Number argStr in
      let y := unary_result M (deg sh) fn x in
      let resStr := formatNumber y in
      {| state :=
           setOperator
             {| display := resStr;
                prev := prev (state sh);
                op := op (state sh);
                overwrite := true;
                lastOp := lastOp (state sh);
                lastOperand := lastOperand (state sh);
                error := error (state sh);
                rightLabel := rightLabel (state sh);
                rightValue := rightValue (state sh) |} o;
         deg := deg sh;
         history := history sh;
         pendingUnary := None |}
  | None => with_state sh (setOperator (state sh) o)
  end.

(** The events of the pad, the scientific pad, the toolbar and the
    keyboard.  An operator typed on the keyboard calls [setOperator]
    directly; the operator buttons go through [pickOperator].  The AC button
    also drops the pending unary function; the Delete and Escape keys do
    not. *)
Inductive Event : Type :=
  | Digit (d : nat)
  | Dot
  | Sign
  | Back
  | Percent
  | OperatorButton (o : string)
  | OperatorKey (o : string)
  | Equal
  | AC
  | ClearKey
  | UnaryButton (fn : Unary)
  | ConstE
  | ConstPI
  | DegToggle
  | HistoryClear.

Definition handle (M : MathLib) (sh : Shell) (ev : Event) : Shell :=
  match ev with
  | Digit d => with_state sh (inputDigit (state sh) d)
  | Dot => with_state sh (inputDot (state sh))
  | Sign => with_state sh (toggleSign (state sh))
  | Back => with_state sh (backspace (state sh))
  | Percent => with_state sh (percent (state sh))
  | OperatorButton o => pickOperator M sh o
  | OperatorKey o => with_state sh (setOperator (state sh) o)
  | Equal => onEqual M sh
  | AC =>
      {| state := clearAll; deg := deg sh; history := history sh;
         pendingUnary := None |}
  | ClearKey => with_state sh clearAll
  | UnaryButton fn => stageUnary sh fn
  | ConstE => setConst sh Math_E
  | ConstPI => setConst sh Math_PI
  | DegToggle =>
      {| state := state sh; deg := negb (deg sh); history := history sh;
         pendingUnary := pendingUnary sh |}
  | HistoryClear =>
      {| state := state sh; deg := deg sh; history := [];
         pendingUnary := pendingUnary sh |}
  end.

Definition session (M : MathLib) (evs : list Event) : Shell :=
  fold_left (handle M) evs initial.

(** A library that returns its argument, to run sessions in which no
    transcendental function is reached. *)
Definition stub_lib : MathLib :=
  {| Math_exp := fun x => x; Math_log := fun x => x;
     Math_log10 := fun x => x; Math_sin := fun x => x;
     Math_cos := fun x => x; Math_tan := fun x => x |}.

End Shell.



(** ** Notions used by the further properties *)

(** The number of decimal points in a string. *)
Fixpoint points (s : string) : nat :=
  match s with
  | EmptyString => 0%nat
  | String x r => ((if Ascii.eqb x "." then 1 else 0) + points r)%nat
  end.

Definition not_point (c : ascii) : bool := negb (Ascii.eqb c ".").

(** A number that may be [null] is finite when present. *)
Definition finite_opt (v : option number) : bool :=
  match v with
  | Some n => isFinite n
  | None => true
  end.

(** The digits typed, without the leading zeros. *)
Fixpoint skip_zeros (ds : list nat) : list nat :=
  match ds with
  | O :: r => skip_zeros r
  | _ => ds
  end.

Fixpoint digits_text (ds : list nat) : string :=
  match ds with
  | [] => EmptyString
  | d :: r => String_ d ++ digits_text r
  end.

(** What the display shows after the digits [ds] are typed: the digits
    without leading zeros, cut after sixteen; "0" when nothing is left. *)
Definition shown (ds : list nat) : string :=
  match skip_zeros ds with
  | [] => "0"
  | sig => digits_text (firstn 16 sig)
  end.

(** A staged percent is a pair: no label and no value, or a label that ends
    in the percent sign together with a value. *)
Definition staged_pair (state : State) : Prop :=
  (rightLabel state = None /\ rightValue state = None) \/
  (exists (t : string) (v : number),
     rightLabel state = Some (t ++ "%") /\ rightValue state = Some v).

(** In a state without the error flag, the operands the state stores are
    finite numbers. *)
Definition operands_finite (state : State) : Prop :=
  error state = false ->
  finite_opt (prev state) = true /\
  finite_opt (rightValue state) = true /\
  finite_opt (lastOperand state) = true.

(** The display shows a text without the letter E, or it shows "Error" in a
    state that has the error flag and holds no operand. *)
Definition error_display (state : State) : Prop :=
  str_all (fun c => negb (Ascii.eqb c "E")) (display state) = true \/
  (display state = "Error" /\ error state = true /\ prev state = None /\
   lastOp state = None /\ lastOperand state = None /\
   rightLabel state = None /\ rightValue state = None).

(** What [preview] returns once [200 + 10 %] is staged. *)
Definition preview_200_plus_10_percent : Preview :=
  {| p_a := Some (of_Z 200); p_b := of_Z 20; p_bLabel := Some "10%";
     p_op := Some "+"; p_result := of_Z 20; p_resultStr := "20";
     p_error := false; p_kind := "percent" |}.

(** The left side of a history line: operand, operator, operand. *)
Definition history_left_side (p : Preview) : string :=
  Shell.formatNumber_nullable (p_a p) ++ " " ++ Shell.template (p_op p)
  ++ " " ++ formatNumber (p_b p).

(** Sessions of the scenarios below. *)
Definition session_error_then_operator : list Shell.Event :=
  [Shell.Digit 1; Shell.OperatorButton "/"; Shell.Digit 0;
   Shell.OperatorButton "+"].

Definition preview_zero_plus_zero : Preview :=
  {| p_a := Some zero; p_b := zero; p_bLabel := None; p_op := Some "+";
     p_result := zero; p_resultStr := "0"; p_error := false;
     p_kind := "binary" |}.

Definition session_error_then_sqrt_pi : list Shell.Event :=
  session_error_then_operator ++ [Shell.ConstPI; Shell.UnaryButton Shell.sqrt].

(** The session [1 / 0 + pi sqrt = 5]: the division raises the error flag
    and stages [+] without a left operand, the square root of the constant
    clears the flag, and a digit is typed. *)
Definition session_plus_without_prev : list Shell.Event :=
  session_error_then_sqrt_pi ++ [Shell.Equal; Shell.Digit 5].

Definition state_plus_without_prev : State :=
  Shell.state (Shell.session Shell.stub_lib session_plus_without_prev).

(** The events that stage no unary function and insert no constant: each
    calls a transition function of the engine, or leaves the state alone
    (the degrees toggle, the clearing of the history). *)
Definition engine_event (ev : Shell.Event) : bool :=
  match ev with
  | Shell.UnaryButton _ | Shell.ConstE | Shell.ConstPI => false
  | _ => true
  end.

Definition key_of (ev : Shell.Event) : list Key :=
  match ev with
  | Shell.Digit d => [KDigit d]
  | Shell.Dot => [KDot]
  | Shell.Sign => [KToggleSign]
  | Shell.Back => [KBackspace]
  | Shell.Percent => [KPercent]
  | Shell.OperatorButton o | Shell.OperatorKey o => [KOperator o]
  | Shell.Equal => [KEvaluate]
  | Shell.AC | Shell.ClearKey => [KClearAll]
  | _ => []
  end.

Definition keys_of (evs : list Shell.Event) : list Key := flat_map key_of evs.

(** The session [7 + 3] on the buttons. *)
Definition session_7_plus_3 : list Shell.Event :=
  [Shell.Digit 7; Shell.OperatorButton "+"; Shell.Digit 3].

(** The session [10 ^ 300 + 9999999999999999 % sqrt =]: the percent
    overflows, and the square root is taken of the display. *)
Definition session_percent_overflow_then_sqrt : list Shell.Event :=
  [Shell.Digit 1; Shell.Digit 0; Shell.OperatorButton "^"; Shell.Digit 3;
   Shell.Digit 0; Shell.Digit 0; Shell.OperatorButton "+"]
  ++ map Shell.Digit (repeat 9%nat 16)
  ++ [Shell.Percent; Shell.UnaryButton Shell.sqrt; Shell.Equal].

(** Case analysis on every test of the goal. *)
Ltac branches :=
  repeat match goal with
         | |- context [if ?c then _ else _] => destruct c eqn:?
         | |- context [match ?c with Some _ => _ | None => _ end] =>
             destruct c eqn:?
         end.

(** ** What the formatted strings are made of

    [formatNumber] signals a non-finite result by the string "Error", and
    every compute branch tests for that string.  No numeral produced for a
    finite number contains the letter E, so the test is exact. *)

Definition not_E (c : ascii) : bool := negb (Ascii.eqb c "E").

Lemma str_all_app (p : ascii -> bool) (a b : string) :
  str_all p (a ++ b) = str_all p a && str_all p b.
Proof.
  induction a as [|x a IH]; simpl.
  - reflexivity.
  - rewrite IH. now rewrite andb_assoc.
Qed.

Lemma str_all_take (p : ascii -> bool) (n : nat) (s : string) :
  str_all p s = true -> str_all p (str_take n s) = true.
Proof.
  revert s. induction n as [|n IH]; intros [|x r]; simpl; trivial.
  intros H. apply andb_true_iff in H as [Hx Hr].
  now rewrite Hx, IH.
Qed.

Lemma str_all_drop (p : ascii -> bool) (n : nat) (s : string) :
  str_all p s = true -> str_all p (str_drop n s) = true.
Proof.
  revert s. induction n as [|n IH]; intros [|x r]; simpl; trivial.
  intros H. apply andb_true_iff in H as [_ Hr]. now apply IH.
Qed.

Lemma str_all_zeros (n : nat) : str_all not_E (zeros n) = true.
Proof. induction n; simpl; trivial. Qed.

Lemma not_E_digit_char (d : Z) : not_E (digit_char d) = true.
Proof.
  unfold digit_char.
  destruct (Z.to_nat (d mod 10)) as [|[|[|[|[|[|[|[|[|n]]]]]]]]]; reflexivity.
Qed.

Lemma str_all_digits_fuel (fuel : nat) (z : Z) (acc : string) :
  str_all not_E acc = true -> str_all not_E (digits_fuel fuel z acc) = true.
Proof.
  revert z acc. induction fuel as [|f IH]; intros z acc Hacc; simpl; trivial.
  assert (H : str_all not_E (String (digit_char z) acc) = true)
    by (simpl; now rewrite not_E_digit_char).
  destruct (z <? 10); [exact H | now apply IH].
Qed.

Lemma str_all_decimal (z : Z) : str_all not_E (decimal z) = true.
Proof. unfold decimal. now apply str_all_digits_fuel. Qed.

Lemma str_all_strip_zeros (p : ascii -> bool) (s : string) :
  str_all p s = true -> str_all p (strip_zeros s) = true.
Proof.
  induction s as [|x r IH]; simpl; trivial.
  intros H. apply andb_true_iff in H as [Hx Hr]. specialize (IH Hr).
  destruct (strip_zeros r) as [|y r'].
  - destruct (Ascii.eqb x "0"); simpl; trivial. now rewrite Hx.
  - change (str_all p (String x (String y r'))) with
      (p x && str_all p (String y r')). now rewrite Hx, IH.
Qed.

Lemma str_all_group (s : string) :
  str_all not_E s = true -> str_all not_E (group s) = true.
Proof.
  induction s as [|x r IH]; simpl; trivial.
  intros H. apply andb_true_iff in H as [Hx Hr]. rewrite Hx. simpl.
  match goal with |- context [if ?c then _ else _] => destruct c end; auto.
Qed.

Lemma str_all_replace_point_zeros (p : ascii -> bool) (s : string) :
  str_all p s = true -> str_all p (replace_point_zeros s) = true.
Proof.
  induction s as [|x r IH]; simpl; trivial.
  intros H. apply andb_true_iff in H as [Hx Hr].
  destruct (Ascii.eqb x "." && negb (is_empty r) && all_zeros r); simpl; trivial.
  now rewrite Hx, IH.
Qed.

Lemma str_all_replace_trailing_zeros (p : ascii -> bool) (s : string) :
  str_all p s = true -> str_all p (replace_trailing_zeros s) = true.
Proof.
  induction s as [|x r IH]; simpl; trivial.
  intros H. apply andb_true_iff in H as [Hx Hr].
  destruct (Ascii.eqb x "." && str_all is_digit r && ends_with_zero r); simpl;
    rewrite Hx; simpl; [now apply str_all_strip_zeros | now apply IH].
Qed.

Lemma str_all_layout (ds : string) (n : Z) :
  str_all not_E ds = true -> str_all not_E (layout ds n) = true.
Proof.
  intros H. unfold layout.
  repeat match goal with |- context [if ?c then _ else _] => destruct c end;
    repeat rewrite str_all_app;
    repeat (apply andb_true_intro; split);
    auto using str_all_take, str_all_drop, str_all_zeros, str_all_decimal.
Qed.

Lemma str_all_Number_toString (x : number) :
  str_all not_E (Number_toString x) = true.
Proof.
  destruct x as [s|s| |s m e]; unfold Number_toString; try reflexivity.
  - now destruct s.
  - destruct (magnitude m e) as [P Q].
    destruct (shortest 16 (S754_finite false m e) P Q (decimal_exponent P Q) 1)
      as [d n].
    rewrite str_all_app, str_all_layout by apply str_all_decimal.
    now destruct s.
Qed.

Lemma str_all_significant (p : Z) (x : number) (P Q : positive) :
  str_all not_E (fst (significant p x P Q)) = true.
Proof.
  unfold significant.
  destruct (shortest 16 x P Q (decimal_exponent P Q) 1) as [d n0].
  cbv zeta.
  match goal with |- context [if ?c =? _ then _ else _] => destruct (c =? _) end;
    apply str_all_strip_zeros, str_all_decimal.
Qed.

Lemma str_all_toLocaleString (p : Z) (x : number) :
  str_all not_E (toLocaleString_enUS p x) = true.
Proof.
  destruct x as [s|s| |s m e]; unfold toLocaleString_enUS; try reflexivity.
  - now destruct s.
  - now destruct s.
  - destruct (magnitude m e) as [P Q].
    pose proof (str_all_significant p (S754_finite false m e) P Q) as Hds.
    destruct (significant p (S754_finite false m e) P Q) as [ds n].
    cbn [fst] in Hds.
    rewrite str_all_app. apply andb_true_intro. split; [now destruct s|].
    repeat match goal with |- context [if ?c then _ else _] => destruct c end;
      repeat rewrite str_all_app;
      repeat (apply andb_true_intro; split);
      auto using str_all_take, str_all_drop, str_all_zeros, str_all_group.
    apply str_all_group. rewrite str_all_app, Hds. apply str_all_zeros.
Qed.

Lemma str_all_formatNumber (n : number) :
  isFinite n = true -> str_all not_E (formatNumber n) = true.
Proof.
  intros Hn. unfold formatNumber. rewrite Hn. simpl.
  set (s := div _ _).
  destruct (includes (Number_toString s) "e").
  - apply str_all_toLocaleString.
  - destruct (includes (Number_toString s) ".").
    + apply str_all_replace_trailing_zeros, str_all_replace_point_zeros,
        str_all_Number_toString.
    + apply str_all_Number_toString.
Qed.

(** [formatNumber(n) === 'Error'] exactly when [n] is not finite. *)
Lemma formatNumber_Error (n : number) :
  String.eqb (formatNumber n) "Error" = negb (isFinite n).
Proof.
  destruct (isFinite n) eqn:Hn; simpl.
  - apply String.eqb_neq. intros E.
    pose proof (str_all_formatNumber n Hn) as H.
    rewrite E in H. discriminate H.
  - unfold formatNumber. now rewrite Hn.
Qed.

(** ** The conversions on known values *)

Example Number_literals :
  Number "7" = of_Z 7 /\
  Number "0." = S754_zero false /\
  Number "-0." = S754_zero true /\
  Number "9999999999999999" = of_Z 10000000000000000 /\
  Number " 12.5e1 " = of_Z 125 /\
  Number "." = NaN /\
  Number "-" = NaN /\
  Number "1,000" = NaN /\
  Number "Infinity" = Infinity.
Proof. vm_compute. repeat split; reflexivity. Qed.

Example Number_toString_values :
  Number_toString (Number "0.1") = "0.1" /\
  Number_toString (add (Number "0.1") (Number "0.2")) = "0.30000000000000004" /\
  Number_toString (div (of_Z 1) (of_Z 3)) = "0.3333333333333333" /\
  Number_toString (Number "123456789012345680000") = "123456789012345680000" /\
  Number_toString (Number "1e21") = "1e+21" /\
  Number_toString (Number "0.000001") = "0.000001" /\
  Number_toString (Number "0.0000001") = "1e-7" /\
  Number_toString (Number "1.5e300") = "1.5e+300" /\
  Number_toString (S754_zero true) = "0".
Proof. vm_compute. repeat split; reflexivity. Qed.

Example toLocaleString_values :
  toLocaleString_enUS 12 (Number "1e21") = "1,000,000,000,000,000,000,000" /\
  toLocaleString_enUS 12 (Number "1e-7") = "0.0000001" /\
  toLocaleString_enUS 12 (Number "1234567.891") = "1,234,567.891" /\
  toLocaleString_enUS 12 (Number "-999999999999.9") = "-1,000,000,000,000".
Proof. vm_compute. repeat split; reflexivity. Qed.

Example Math_round_values :
  Math_round (Number "2.5") = of_Z 3 /\
  Math_round (Number "-2.5") = of_Z (-2) /\
  Math_round (Number "-0.5") = S754_zero true /\
  Math_round (Number "0.49999999999999994") = S754_zero false.
Proof. vm_compute. repeat split; reflexivity. Qed.

Example formatNumber_values :
  formatNumber (add (Number "0.1") (Number "0.2")) = "0.3" /\
  formatNumber (div (of_Z 1) (of_Z 3)) = "0.333333333333" /\
  formatNumber (Number "0.0000001") = "0.0000001" /\
  formatNumber (div (of_Z 1) zero) = "Error" /\
  formatNumber NaN = "Error".
Proof. vm_compute. repeat split; reflexivity. Qed.

(** [toNumber] never returns a non-finite number. *)
Lemma toNumber_finite (s : string) : isFinite (toNumber s) = true.
Proof.
  unfold toNumber. destruct (isFinite (Number s)) eqn:H; [exact H | reflexivity].
Qed.

(** ** Error reset *)

(** C6: in a state with [error = true], each of [inputDigit] (any digit),
    [inputDot], [setOperator] (any operator), [percent], [toggleSign],
    [backspace] and [evaluate] returns exactly the state of
    [createInitialState]. *)
Theorem error_resets_every_transition (state : State) (d : nat) (o : string) :
  error state = true ->
  inputDigit state d = createInitialState /\
  inputDot state = createInitialState /\
  setOperator state o = createInitialState /\
  percent state = createInitialState /\
  toggleSign state = createInitialState /\
  backspace state = createInitialState /\
  evaluate state = createInitialState.
Proof.
  intros Herr.
  unfold inputDigit, inputDot, setOperator, percent, toggleSign, backspace,
    evaluate.
  rewrite Herr. repeat split.
Qed.

Lemma error_resets_witness :
  error (run keys_division_by_zero) = true /\
  (inputDigit (run keys_division_by_zero) 7 = createInitialState /\
   inputDot (run keys_division_by_zero) = createInitialState /\
   setOperator (run keys_division_by_zero) "+" = createInitialState /\
   percent (run keys_division_by_zero) = createInitialState /\
   toggleSign (run keys_division_by_zero) = createInitialState /\
   backspace (run keys_division_by_zero) = createInitialState /\
   evaluate (run keys_division_by_zero) = createInitialState).
Proof.
  split.
  - vm_compute. reflexivity.
  - apply (error_resets_every_transition (run keys_division_by_zero) 7 "+").
    vm_compute. reflexivity.
Defined.

(** ** [compute] and [formatNumber] *)

Example compute_add : compute (of_Z 7) (of_Z 3) "+" = of_Z 10.
Proof. vm_compute. reflexivity. Qed.

Example compute_sub : compute (of_Z 7) (of_Z 3) "-" = of_Z 4.
Proof. vm_compute. reflexivity. Qed.

Example compute_mul : compute (of_Z 7) (of_Z 3) "*" = of_Z 21.
Proof. vm_compute. reflexivity. Qed.

Example compute_div : compute (of_Z 7) (of_Z 2) "/" = Number "3.5".
Proof. vm_compute. reflexivity. Qed.

Example compute_pow : compute (of_Z 2) (of_Z 10) "^" = of_Z 1024.
Proof. vm_compute. reflexivity. Qed.

Example compute_zero_by_zero : compute zero zero "/" = Infinity.
Proof. vm_compute. reflexivity. Qed.

Example compute_negative_by_zero :
  compute (of_Z (-1)) (S754_zero true) "/" = Infinity.
Proof. vm_compute. reflexivity. Qed.

Example formatNumber_simple :
  formatNumber (Number "2.5") = "2.5" /\ formatNumber (Number "4.0") = "4".
Proof. vm_compute. split; reflexivity. Qed.






(** ** Compute branches *)

(** C2: in a non-error state, whenever [setOperator] (chaining) or [evaluate]
    (pending operator, or repeat of the last operation) computes a binary
    result [res]: if [res] is finite the returned state has [prev = res] and
    [overwrite = true]; if it is not, the returned state has [error = true]
    and [prev], [lastOp], [lastOperand] all [null]. *)
Theorem compute_branch_outcome (state state' : State) (res : number) :
  error state = false ->
  computes_binary state state' res ->
  if isFinite res
  then prev state' = Some res /\ overwrite state' = true
  else error state' = true /\ prev state' = None /\
       lastOp state' = None /\ lastOperand state' = None.
Proof.
  intros Herr Hc.
  destruct Hc as [o Hop Hov | Hop | operand Hop Hlabel Hlast Hoperand].
  - unfold setOperator. rewrite Herr, Hop, Hov. cbn [andb negb].
    cbv zeta. rewrite formatNumber_Error.
    destruct (isFinite _); cbn; auto.
  - unfold evaluate. rewrite Herr, Hop.
    destruct (truthy (rightLabel state)) eqn:Hlabel; cbn [andb negb].
    + unfold staged_or_display. rewrite Hlabel.
      cbv zeta. rewrite formatNumber_Error.
      destruct (isFinite _); cbn; auto.
    + cbv zeta. rewrite formatNumber_Error.
      destruct (isFinite _); cbn; auto.
  - unfold evaluate. rewrite Herr, Hop, Hlabel, Hoperand, Hlast.
    cbn [andb negb]. cbv zeta. rewrite formatNumber_Error.
    destruct (isFinite _); cbn; auto.
Qed.

Lemma compute_branch_outcome_witness :
  error (run keys_7_plus_3) = false /\
  computes_binary (run keys_7_plus_3) (evaluate (run keys_7_plus_3))
    (of_Z 10) /\
  (prev (evaluate (run keys_7_plus_3)) = Some (of_Z 10) /\
   overwrite (evaluate (run keys_7_plus_3)) = true).
Proof.
  assert (Hc : computes_binary (run keys_7_plus_3)
                 (evaluate (run keys_7_plus_3)) (of_Z 10))
    by exact (pending (run keys_7_plus_3) eq_refl).
  split; [reflexivity|]. split; [exact Hc|].
  exact (compute_branch_outcome (run keys_7_plus_3)
           (evaluate (run keys_7_plus_3)) (of_Z 10) eq_refl Hc).
Defined.

(** A computation that ends in the error state: [1 / 0 =]. *)
Example compute_branch_outcome_error :
  computes_binary (run [KDigit 1; KOperator "/"; KDigit 0])
    (evaluate (run [KDigit 1; KOperator "/"; KDigit 0])) Infinity /\
  run keys_division_by_zero =
    {| display := "Error"; prev := None; op := None; overwrite := true;
       lastOp := None; lastOperand := None; error := true;
       rightLabel := None; rightValue := None |}.
Proof.
  split.
  - exact (pending (run [KDigit 1; KOperator "/"; KDigit 0]) eq_refl).
  - vm_compute. reflexivity.
Qed.

(** ** Percent *)

(** Along every run from the initial state, a pending operator in a
    non-error state comes with its left operand: [prev] is present. *)
Lemma press_keeps_prev (state : State) (k : Key) :
  (error state = false -> truthy (op state) = true -> prev state <> None) ->
  error (press state k) = false ->
  truthy (op (press state k)) = true ->
  prev (press state k) <> None.
Proof.
  intros Inv.
  destruct k as [d| |o| | | | |]; cbn [press].
  - unfold inputDigit. destruct (error state) eqn:Herr; [discriminate|].
    repeat match goal with |- context [if ?c then _ else _] => destruct c end;
      cbn; auto.
  - unfold inputDot. destruct (error state) eqn:Herr; [discriminate|].
    repeat match goal with |- context [if ?c then _ else _] => destruct c end;
      cbn; auto.
  - unfold setOperator. destruct (error state) eqn:Herr; [discriminate|].
    destruct (truthy (op state) && negb (overwrite state)); cbn.
    + intros ->. discriminate.
    + discriminate.
  - unfold toggleSign. destruct (error state) eqn:Herr; [discriminate|].
    repeat match goal with |- context [if ?c then _ else _] => destruct c end;
      cbn; auto.
  - unfold backspace. destruct (error state) eqn:Herr; [discriminate|].
    repeat match goal with |- context [if ?c then _ else _] => destruct c end;
      cbn; auto.
  - discriminate.
  - unfold evaluate. destruct (error state) eqn:Herr; [discriminate|].
    destruct (truthy (op state)) eqn:Hop;
      destruct (truthy (rightLabel state)); cbn [andb negb];
      try (cbn; discriminate).
    destruct (lastOperand state); [|rewrite Hop; discriminate].
    destruct (truthy (lastOp state)); [cbn; discriminate|].
    rewrite Hop. discriminate.
  - unfold percent. destruct (error state) eqn:Herr; [discriminate|].
    cbn. auto.
Qed.

Lemma pending_operator_has_prev (keys : list Key) :
  error (run keys) = false ->
  truthy (op (run keys)) = true ->
  prev (run keys) <> None.
Proof.
  unfold run.
  assert (H : forall state,
             (error state = false -> truthy (op state) = true ->
              prev state <> None) ->
             error (fold_left press keys state) = false ->
             truthy (op (fold_left press keys state)) = true ->
             prev (fold_left press keys state) <> None).
  { induction keys as [|k keys IH]; intros state Inv; cbn [fold_left].
    - exact Inv.
    - apply IH. now apply press_keeps_prev. }
  apply H. discriminate.
Qed.

(** C3 (amended): in a non-error state, [percent] leaves the display
    unchanged, sets [rightLabel] to the formatted display value followed by
    the percent sign, and stages in [rightValue]: [cur / 100] when the
    pending operator is [*] or [/]; [base * cur / 100] when it is [+] or
    [-], where [base] is [prev] when [prev] is present and [cur] when it is
    [null]; [cur / 100] when no operator is pending ([cur] is the numeric
    value of the display). *)
Theorem percent_stages_value (state : State) :
  error state = false ->
  let cur := toNumber (display state) in
  display (percent state) = display state /\
  rightLabel (percent state) = Some (formatNumber cur ++ "%") /\
  (op state = Some "*" \/ op state = Some "/" ->
   rightValue (percent state) = Some (div cur (of_Z 100))) /\
  (op state = Some "+" \/ op state = Some "-" ->
   rightValue (percent state)
   = Some (div (mul (nullish (prev state) cur) cur) (of_Z 100))) /\
  (truthy (op state) = false ->
   rightValue (percent state) = Some (div cur (of_Z 100))).
Proof.
  intros Herr cur. unfold percent. rewrite Herr. cbn.
  repeat split.
  - intros [H | H]; rewrite H; reflexivity.
  - intros [H | H]; rewrite H; reflexivity.
  - intros H. rewrite H. reflexivity.
Qed.

Lemma percent_stages_value_witness :
  error (run keys_200_plus_10) = false /\
  display (percent (run keys_200_plus_10)) = "10" /\
  rightLabel (percent (run keys_200_plus_10)) = Some "10%" /\
  rightValue (percent (run keys_200_plus_10)) = Some (of_Z 20).
Proof.
  pose proof (percent_stages_value (run keys_200_plus_10) eq_refl)
    as (Hd & Hl & _ & Hv & _).
  split; [reflexivity|]. split; [exact Hd|]. split; [exact Hl|].
  exact (Hv (or_introl eq_refl)).
Defined.

(** C3 (counterexample): the state the shell is in after
    [1 / 0 + pi sqrt = 5] has [+] pending, no error flag and [prev = null].
    There [percent] stages [5 * 5 / 100 = 0.25]: the display value stands in
    for the absent first operand.  It does not stage [prev * cur / 100],
    which is 0 for a [null] factor. *)
Lemma percent_without_first_operand :
  error state_plus_without_prev = false /\
  op state_plus_without_prev = Some "+" /\
  prev state_plus_without_prev = None /\
  toNumber (display state_plus_without_prev) = of_Z 5 /\
  rightValue (percent state_plus_without_prev) = Some (Number "0.25") /\
  div (mul (of_Z 5) (of_Z 5)) (of_Z 100) = Number "0.25" /\
  rightValue (percent state_plus_without_prev)
  <> Some (div (mul zero (of_Z 5)) (of_Z 100)).
Proof.
  assert (Hv : rightValue (percent state_plus_without_prev)
               = Some (Number "0.25")) by (vm_compute; reflexivity).
  repeat split; try (vm_compute; reflexivity).
  rewrite Hv. vm_compute. intros H. discriminate H.
Qed.

(** The two percent scenarios of the specification, run to the end. *)
Example percent_with_add :
  rightValue (run keys_200_plus_10_percent) = Some (of_Z 20) /\
  display (evaluate (run keys_200_plus_10_percent)) = "220".
Proof. vm_compute. split; reflexivity. Qed.

Example percent_with_multiply :
  rightValue (run [KDigit 2; KDigit 0; KDigit 0; KOperator "*"; KDigit 1;
                   KDigit 0; KPercent]) = Some (Number "0.1") /\
  display (run [KDigit 2; KDigit 0; KDigit 0; KOperator "*"; KDigit 1;
                KDigit 0; KPercent; KEvaluate]) = "20".
Proof. vm_compute. split; reflexivity. Qed.

(** ** Scenarios from the initial state *)

(** C4: from the initial state, [inputDigit(7)], [setOperator('+')],
    [inputDigit(3)], [setOperator('*')] first evaluates the pending [7 + 3]
    and yields display "10", [prev = 10], [op = '*'], [overwrite = true],
    [lastOp = '+'] and [lastOperand = 3]. *)
Theorem operator_chaining :
  setOperator
    (inputDigit (setOperator (inputDigit createInitialState 7) "+") 3) "*"
  = {| display := "10";
       prev := Some (compute (of_Z 7) (of_Z 3) "+");
       op := Some "*";
       overwrite := true;
       lastOp := Some "+";
       lastOperand := Some (of_Z 3);
       error := false;
       rightLabel := None;
       rightValue := None |}
  /\ compute (of_Z 7) (of_Z 3) "+" = of_Z 10.
Proof. vm_compute. split; reflexivity. Qed.

(** C5: from the initial state, [inputDigit(5)], [setOperator('+')],
    [inputDigit(2)], [evaluate] yields display "7" and remembers the pair
    ['+'], [2]; [evaluate] once more re-applies it to the current display
    and yields display "9". *)
Theorem repeat_equals :
  let seven :=
    evaluate
      (inputDigit (setOperator (inputDigit createInitialState 5) "+") 2) in
  display seven = "7" /\
  op seven = None /\
  lastOp seven = Some "+" /\
  lastOperand seven = Some (of_Z 2) /\
  display (evaluate seven) = "9" /\
  prev (evaluate seven) =
    Some (compute (toNumber (display seven)) (of_Z 2) "+").
Proof. vm_compute. repeat split; reflexivity. Qed.

(** C1 (the code departs from it): after
    [9999999999999999 * 9999999999999999 =] the state is not an error
    state, yet its display is a numeral grouped by commas, which [Number]
    reads as [NaN]; [toNumber] then reads the display as 0, so the next
    [evaluate] multiplies 0, not the product, by the remembered operand. *)
Theorem large_result_display_is_not_numeric :
  error (run keys_large_product) = false /\
  display (run keys_large_product)
    = "100,000,000,000,000,000,000,000,000,000,000" /\
  Number (display (run keys_large_product)) = NaN /\
  isFinite (Number (display (run keys_large_product))) = false /\
  display (evaluate (run keys_large_product)) = "0".
Proof. vm_compute. repeat split; reflexivity. Qed.

(** A finite result whose scaling by [1e12] overflows is displayed as
    "Infinity", again without the error flag. *)
Example overflowing_result_display :
  error (run [KDigit 1; KDigit 0; KOperator "^"; KDigit 3; KDigit 0;
              KDigit 0; KEvaluate]) = false /\
  display (run [KDigit 1; KDigit 0; KOperator "^"; KDigit 3; KDigit 0;
                KDigit 0; KEvaluate]) = "Infinity".
Proof. vm_compute. split; reflexivity. Qed.

(** ** [preview] against [evaluate] *)

(** C9 (the code departs from it): with [200 + 10 %] staged, [preview]
    reports the kind [percent] and as its [result] the staged right operand
    20, formatted "20", while [evaluate] computes [200 + 20] and displays
    "220". *)
Theorem preview_percent_result_differs :
  error (run keys_200_plus_10_percent) = false /\
  option_map p_kind (preview (run keys_200_plus_10_percent))
    = Some "percent" /\
  option_map p_result (preview (run keys_200_plus_10_percent))
    = Some (of_Z 20) /\
  option_map (fun p => formatNumber (p_result p))
    (preview (run keys_200_plus_10_percent)) = Some "20" /\
  display (evaluate (run keys_200_plus_10_percent)) = "220".
Proof. vm_compute. repeat split; reflexivity. Qed.

(** In the three other kinds the projection and [evaluate] agree: the
    [result] of [preview], formatted, is the display [evaluate] returns, and
    the kind names the case [evaluate] takes. *)
Lemma preview_agrees_outside_percent (state : State) (p : Preview) :
  error state = false ->
  preview state = Some p ->
  p_kind p <> "percent" ->
  formatNumber (p_result p) = display (evaluate state) /\
  (p_kind p = "binary" /\ truthy (op state) = true /\
     truthy (rightLabel state) = false
   \/ p_kind p = "percentUnary" /\ truthy (op state) = false /\
     truthy (rightLabel state) = true
   \/ p_kind p = "repeat" /\ truthy (op state) = false /\
     truthy (rightLabel state) = false /\ truthy (lastOp state) = true /\
     lastOperand state <> None).
Proof.
  intros Herr Hp Hk. unfold preview in Hp. unfold evaluate. rewrite Herr.
  destruct (truthy (op state)) eqn:Hop;
    destruct (truthy (rightLabel state)) eqn:Hlabel; cbn [andb negb] in *.
  - injection Hp as <-. now contradiction Hk.
  - injection Hp as <-. cbn. unfold staged_or_display. rewrite Hlabel.
    split; [reflexivity | left; auto].
  - injection Hp as <-. cbn. split; [reflexivity | right; left; auto].
  - destruct (lastOperand state) as [operand|] eqn:Hoperand; [|discriminate].
    destruct (truthy (lastOp state)) eqn:Hlast; [|discriminate].
    injection Hp as <-. cbn.
    split; [reflexivity | right; right; repeat split; auto; discriminate].
Qed.

(** In the kind [percent] the tag still names the case [evaluate] takes. *)
Lemma preview_percent_kind (state : State) (p : Preview) :
  preview state = Some p ->
  p_kind p = "percent" ->
  truthy (op state) = true /\ truthy (rightLabel state) = true.
Proof.
  intros Hp Hk. unfold preview in Hp.
  destruct (truthy (op state)) eqn:Hop;
    destruct (truthy (rightLabel state)) eqn:Hlabel; cbn [andb negb] in *;
    auto.
  - injection Hp as <-. discriminate Hk.
  - injection Hp as <-. discriminate Hk.
  - destruct (lastOperand state); [|discriminate].
    destruct (truthy (lastOp state)); [|discriminate].
    injection Hp as <-. discriminate Hk.
Qed.

(** ** The length of the display *)

Lemma length_app (a b : string) :
  length (a ++ b) = (length a + length b)%nat.
Proof. induction a as [|x a IH]; simpl; [reflexivity | now rewrite IH]. Qed.

Lemma length_slice_but_last (s : string) :
  (length (slice_but_last s) <= length s)%nat.
Proof.
  induction s as [|x r IH]; simpl; [lia|].
  destruct r as [|y r']; simpl in *; lia.
Qed.

Lemma length_String_digit (d : nat) :
  (d <= 9)%nat -> length (String_ d) = 1%nat.
Proof.
  intros Hd. do 10 (destruct d as [|d]; [reflexivity|]). lia.
Qed.

Lemma long_display_is_not_zero (s : string) :
  (16 <= length s)%nat -> String.eqb s "0" = false.
Proof.
  intros H. apply String.eqb_neq. intros ->. simpl in H. lia.
Qed.

Lemma entry_key_keeps_bound (state : State) (k : Key) :
  entry_key k ->
  (length (display state) <= 16)%nat ->
  (length (display (press state k)) <= 16)%nat.
Proof.
  intros Hk Hlen. destruct k as [d| |o| | | | |]; simpl in Hk; try contradiction.
  - cbn [press]. unfold inputDigit.
    destruct (error state); [simpl; lia|].
    destruct (overwrite state || String.eqb (display state) "0").
    + cbn [display]. rewrite length_String_digit by exact Hk. lia.
    + destruct (16 <=? length (display state))%nat eqn:Hfull; [exact Hlen|].
      cbn [display]. apply Nat.leb_gt in Hfull.
      rewrite length_app, length_String_digit by exact Hk. lia.
  - cbn [press]. unfold backspace.
    destruct (error state); [simpl; lia|].
    destruct (overwrite state); [simpl; lia|].
    match goal with |- context [if ?c then _ else _] => destruct c end;
      cbn [with_display display]; [simpl; lia|].
    pose proof (length_slice_but_last (display state)). lia.
  - simpl. lia.
Qed.

Lemma entry_keys_keep_bound (keys : list Key) (state : State) :
  Forall entry_key keys ->
  (length (display state) <= 16)%nat ->
  (length (display (fold_left press keys state)) <= 16)%nat.
Proof.
  revert state. induction keys as [|k keys IH]; intros state Hks Hlen.
  - exact Hlen.
  - inversion Hks as [|? ? Hk Hrest]; subst. cbn [fold_left].
    apply IH; [exact Hrest | now apply entry_key_keeps_bound].
Qed.

(** C8, as stated, fails: sixteen digits followed by the decimal point give a
    display of seventeen characters (and a computed result can be longer
    still, see [large_result_display_is_not_numeric]). *)
Lemma display_of_seventeen_characters :
  run keys_seventeen
  = {| display := "1111111111111111."; prev := None; op := None;
       overwrite := false; lastOp := None; lastOperand := None;
       error := false; rightLabel := None; rightValue := None |}
  /\ length (display (run keys_seventeen)) = 17%nat.
Proof. vm_compute. split; reflexivity. Qed.

(** C8, amended: digit entry never takes the display beyond 16 characters.
    In a non-error, non-overwrite state whose display has 16 characters or
    more, [inputDigit] returns the state unchanged; and after any sequence of
    digit keys (0 to 9), backspaces and clears from the initial state the
    display has at most 16 characters. *)
Theorem digit_entry_limit :
  (forall (state : State) (d : nat),
     error state = false ->
     overwrite state = false ->
     (16 <= length (display state))%nat ->
     inputDigit state d = state) /\
  (forall keys : list Key,
     Forall entry_key keys ->
     (length (display (run keys)) <= 16)%nat).
Proof.
  split.
  - intros state d Herr Hov Hlen. unfold inputDigit.
    rewrite Herr, Hov, (long_display_is_not_zero _ Hlen). cbn [orb].
    apply Nat.leb_le in Hlen. now rewrite Hlen.
  - intros keys Hks. unfold run.
    apply entry_keys_keep_bound; [exact Hks | simpl; lia].
Qed.

Lemma digit_entry_limit_witness :
  (error (run (repeat (KDigit 1) 16)) = false /\
   overwrite (run (repeat (KDigit 1) 16)) = false /\
   (16 <= length (display (run (repeat (KDigit 1) 16))))%nat /\
   inputDigit (run (repeat (KDigit 1) 16)) 5 = run (repeat (KDigit 1) 16)) /\
  (Forall entry_key (repeat (KDigit 1) 20) /\
   (length (display (run (repeat (KDigit 1) 20))) <= 16)%nat).
Proof.
  assert (Hf : Forall entry_key (repeat (KDigit 1) 20))
    by (repeat constructor).
  pose proof digit_entry_limit as [Hstay Hbound].
  split.
  - split; [reflexivity|]. split; [reflexivity|].
    split; [vm_compute; reflexivity|].
    apply Hstay; [reflexivity | reflexivity | vm_compute; reflexivity].
  - split; [exact Hf | exact (Hbound _ Hf)].
Defined.

(** ** Toggling the sign twice *)

Lemma with_display_same (state : State) (a : string) :
  with_display (with_display state a) (display state) = state.
Proof. now destruct state. Qed.

Lemma toggled_twice (s : string) :
  double_minus s = false -> toggled (toggled s) = s.
Proof.
  unfold double_minus, toggled. destruct s as [|x r]; [reflexivity|].
  cbn [startsWith slice_from1].
  destruct (Ascii.eqb_spec x "-") as [-> | Hx]; cbn [andb].
  - destruct r as [|y r']; [reflexivity|]. cbn [startsWith].
    intros ->. reflexivity.
  - intros _. reflexivity.
Qed.

Lemma toggled_is_zero (s : string) : toggled s = "0" -> s = "-0".
Proof.
  unfold toggled. destruct s as [|x r]; [discriminate|].
  cbn [startsWith slice_from1].
  destruct (Ascii.eqb_spec x "-") as [-> | Hx].
  - now intros ->.
  - discriminate.
Qed.

(** C10, as stated, fails: on the display "-0" (reached by the decimal
    point, the sign key and backspace) the first toggle gives "0", on which
    the second is the identity. *)
Lemma toggleSign_twice_on_minus_zero :
  error (run keys_minus_zero) = false /\
  display (run keys_minus_zero) = "-0" /\
  display (toggleSign (toggleSign (run keys_minus_zero))) = "0" /\
  toggleSign (toggleSign (run keys_minus_zero)) <> run keys_minus_zero.
Proof.
  split; [reflexivity|]. split; [reflexivity|]. split; [reflexivity|].
  vm_compute. discriminate.
Qed.

(** A hand-built display that begins with two minus signs loses both. *)
Example toggleSign_twice_on_double_minus :
  display (toggleSign (toggleSign (with_display createInitialState "--5")))
  = "5".
Proof. reflexivity. Qed.

(** C10, amended: on every non-error state whose display is not "-0" and
    does not begin with two minus signs, toggling the sign twice gives the
    state back, every field included; on display "0" one toggle is already
    the identity. *)
Theorem toggleSign_involution (state : State) :
  error state = false ->
  display state <> "-0" ->
  double_minus (display state) = false ->
  toggleSign (toggleSign state) = state /\
  (display state = "0" -> toggleSign state = state).
Proof.
  intros Herr Hmz Hdm.
  assert (Hzero : String.eqb (display state) "0" = true ->
                  toggleSign state = state).
  { intros Hz. unfold toggleSign. now rewrite Herr, Hz. }
  split.
  - destruct (String.eqb (display state) "0") eqn:Hz.
    + now rewrite !Hzero.
    + assert (Hone : toggleSign state
                     = with_display state (toggled (display state))).
      { unfold toggleSign. rewrite Herr, Hz. now destruct (overwrite state). }
      rewrite Hone. unfold toggleSign. cbn [with_display error display overwrite].
      rewrite Herr.
      destruct (String.eqb_spec (toggled (display state)) "0") as [Ht | _].
      * now apply toggled_is_zero in Ht.
      * rewrite toggled_twice by exact Hdm.
        destruct (overwrite state); apply with_display_same.
  - intros Hd. apply Hzero. now apply String.eqb_eq.
Qed.

Lemma toggleSign_involution_witness :
  error (run [KDigit 4; KDigit 2]) = false /\
  display (run [KDigit 4; KDigit 2]) <> "-0" /\
  double_minus (display (run [KDigit 4; KDigit 2])) = false /\
  display (toggleSign (run [KDigit 4; KDigit 2])) = "-42" /\
  toggleSign (toggleSign (run [KDigit 4; KDigit 2])) = run [KDigit 4; KDigit 2].
Proof.
  assert (Hne : display (run [KDigit 4; KDigit 2]) <> "-0")
    by (vm_compute; discriminate).
  split; [reflexivity|]. split; [exact Hne|]. split; [reflexivity|].
  split; [reflexivity|].
  exact (proj1 (toggleSign_involution (run [KDigit 4; KDigit 2])
                  eq_refl Hne eq_refl)).
Defined.

(** * Further properties of the engine *)

(** ** Invariants of the runs *)

Lemma run_invariant (P : State -> Prop) :
  P createInitialState ->
  (forall state k, P state -> P (press state k)) ->
  forall keys, P (run keys).
Proof.
  intros Hinit Hstep keys. unfold run.
  assert (H : forall state, P state -> P (fold_left press keys state)).
  { induction keys as [|k keys IH]; intros state Hs; cbn [fold_left]; auto. }
  now apply H.
Qed.

Lemma press_staged_pair (state : State) (k : Key) :
  staged_pair state -> staged_pair (press state k).
Proof.
  intros Inv.
  assert (Hnone : forall s', rightLabel s' = None -> rightValue s' = None ->
                             staged_pair s') by (intros; left; auto).
  assert (Hsame : forall s', rightLabel s' = rightLabel state ->
                             rightValue s' = rightValue state ->
                             staged_pair s').
  { intros s' Hl Hv. unfold staged_pair. rewrite Hl, Hv. exact Inv. }
  destruct k as [d| |o| | | | |]; cbn [press].
  - unfold inputDigit. branches; auto.
  - unfold inputDot. branches; auto.
  - unfold setOperator. branches; auto.
  - unfold toggleSign. branches; auto.
  - unfold backspace. branches; auto.
  - now apply Hnone.
  - unfold evaluate. branches; auto.
  - unfold percent. branches; auto;
      right; eexists _, _; cbn; split; reflexivity.
Qed.

(** X1: in every state reached from the initial state, [rightLabel] and
    [rightValue] are both [null] or both present, and a present label is a
    non-empty string that ends in the percent sign; so the truthiness tests
    on [rightLabel] decide whether a value is staged. *)
Theorem staged_percent_is_a_pair (keys : list Key) :
  staged_pair (run keys) /\
  (rightLabel (run keys) = None <-> rightValue (run keys) = None) /\
  (truthy (rightLabel (run keys)) = true <-> rightValue (run keys) <> None).
Proof.
  assert (Inv : staged_pair (run keys)).
  { apply run_invariant.
    - left. split; reflexivity.
    - intros state k. apply press_staged_pair. }
  split; [exact Inv|].
  destruct Inv as [[Hl Hv] | (t & v & Hl & Hv)]; rewrite Hl, Hv.
  - cbn. intuition congruence.
  - destruct t; cbn; intuition congruence.
Qed.

(** ** Stored operands are finite *)

Lemma staged_or_display_finite (state : State) :
  finite_opt (rightValue state) = true ->
  isFinite (staged_or_display state) = true.
Proof.
  intros Hv. unfold staged_or_display.
  destruct (truthy (rightLabel state)); [|apply toNumber_finite].
  destruct (rightValue state); [exact Hv | apply toNumber_finite].
Qed.


Lemma nullish_finite (v : option number) (d : number) :
  finite_opt v = true -> isFinite d = true -> isFinite (nullish v d) = true.
Proof. now destruct v. Qed.

Ltac finite_goal :=
  cbn; intros; try discriminate;
  repeat match goal with
         | H : String.eqb (formatNumber _) _ = false |- _ =>
             rewrite formatNumber_Error in H
         | H : negb _ = false |- _ => apply negb_false_iff in H
         end;
  repeat split;
  auto using toNumber_finite, nullish_finite, staged_or_display_finite;
  try congruence.

Lemma press_operands_finite (state : State) (k : Key) :
  operands_finite state -> operands_finite (press state k).
Proof.
  intros Inv. unfold operands_finite.
  destruct (error state) eqn:Herr.
  - destruct k; cbn [press];
      unfold inputDigit, inputDot, setOperator, toggleSign, backspace,
        clearAll, evaluate, percent;
      rewrite ?Herr; cbn; auto.
  - destruct (Inv Herr) as (Hp & Hv & Hl).
    destruct k as [d| |o| | | | |]; cbn [press].
    + unfold inputDigit. rewrite Herr. branches; finite_goal.
    + unfold inputDot. rewrite Herr. branches; finite_goal.
    + unfold setOperator. rewrite Herr. cbv zeta.
      rewrite ?formatNumber_Error. branches; finite_goal.
    + unfold toggleSign. rewrite Herr. branches; finite_goal.
    + unfold backspace. rewrite Herr. branches; finite_goal.
    + finite_goal.
    + unfold evaluate. rewrite Herr. cbv zeta.
      rewrite ?formatNumber_Error. branches; finite_goal.
    + unfold percent. rewrite Herr. cbv zeta.
      rewrite ?formatNumber_Error. branches; finite_goal.
Qed.

Lemma run_operands_finite (keys : list Key) : operands_finite (run keys).
Proof.
  apply (run_invariant operands_finite).
  - intros _. repeat split.
  - intros state k. apply press_operands_finite.
Qed.

(** X2: in every state that the transition functions of the engine reach
    from the initial state and that has no error flag, the operands the
    state stores ([prev], [rightValue], [lastOperand]) are finite numbers:
    between the keys of the engine no [NaN] and no infinity is carried into
    a later computation.  (The unary functions of the shell write the state
    themselves and are not among these keys.) *)
Theorem stored_operands_are_finite (keys : list Key) :
  error (run keys) = false ->
  finite_opt (prev (run keys)) = true /\
  finite_opt (rightValue (run keys)) = true /\
  finite_opt (lastOperand (run keys)) = true.
Proof. apply run_operands_finite. Qed.

Lemma stored_operands_are_finite_witness :
  error (run keys_200_plus_10_percent) = false /\
  (finite_opt (prev (run keys_200_plus_10_percent)) = true /\
   finite_opt (rightValue (run keys_200_plus_10_percent)) = true /\
   finite_opt (lastOperand (run keys_200_plus_10_percent)) = true).
Proof.
  split; [reflexivity|].
  apply (stored_operands_are_finite keys_200_plus_10_percent). reflexivity.
Defined.

(** A session without unary function and without constant is a run of the
    engine: every event is a key, or leaves the state as it is. *)
Lemma handle_engine_event (M : Shell.MathLib) (sh : Shell.Shell)
    (ev : Shell.Event) :
  Shell.pendingUnary sh = None ->
  engine_event ev = true ->
  Shell.state (Shell.handle M sh ev)
  = fold_left press (key_of ev) (Shell.state sh) /\
  Shell.pendingUnary (Shell.handle M sh ev) = None.
Proof.
  intros Hnone Hev.
  destruct ev; try discriminate Hev; cbn;
    unfold Shell.pickOperator, Shell.onEqual; rewrite ?Hnone; cbn; auto.
Qed.

Lemma session_of_engine_events (M : Shell.MathLib) (evs : list Shell.Event) :
  forallb engine_event evs = true ->
  Shell.state (Shell.session M evs) = run (keys_of evs) /\
  Shell.pendingUnary (Shell.session M evs) = None.
Proof.
  unfold Shell.session, run, keys_of.
  assert (H : forall sh,
             Shell.pendingUnary sh = None ->
             forallb engine_event evs = true ->
             Shell.state (fold_left (Shell.handle M) evs sh)
             = fold_left press (flat_map key_of evs) (Shell.state sh) /\
             Shell.pendingUnary (fold_left (Shell.handle M) evs sh) = None).
  { induction evs as [|ev evs IH]; intros sh Hnone Hall; [now split|].
    cbn [forallb] in Hall. apply andb_true_iff in Hall as [Hev Hall].
    destruct (handle_engine_event M sh ev Hnone Hev) as [Hstate Hpend].
    cbn [fold_left flat_map]. rewrite fold_left_app, <- Hstate.
    now apply IH. }
  now apply H.
Qed.

(** X3: in every session of the shell that stages no unary function and
    inserts no constant, a pending operator without the error flag comes
    with a finite left operand, and the tape then reads that operand
    followed by the operator. *)
Theorem pending_operation_shows_on_tape (M : Shell.MathLib)
    (evs : list Shell.Event) :
  forallb engine_event evs = true ->
  error (Shell.state (Shell.session M evs)) = false ->
  truthy (op (Shell.state (Shell.session M evs))) = true ->
  exists p : number,
    prev (Shell.state (Shell.session M evs)) = Some p /\
    isFinite p = true /\
    Shell.tapeText (Shell.state (Shell.session M evs))
    = Number_toString p ++ " " ++ str_of (op (Shell.state (Shell.session M evs))).
Proof.
  intros Hall. destruct (session_of_engine_events M evs Hall) as [-> _].
  set (keys := keys_of evs). intros Herr Hop.
  pose proof (pending_operator_has_prev keys Herr Hop) as Hp.
  pose proof (run_operands_finite keys Herr) as (Hfin & _).
  destruct (prev (run keys)) as [p|] eqn:Hprev; [|now contradiction Hp].
  exists p. split; [reflexivity|]. split; [exact Hfin|].
  unfold Shell.tapeText. now rewrite Herr, Hprev, Hop.
Qed.

Lemma pending_operation_shows_on_tape_witness :
  forallb engine_event session_7_plus_3 = true /\
  error (Shell.state (Shell.session Shell.stub_lib session_7_plus_3)) = false /\
  truthy (op (Shell.state (Shell.session Shell.stub_lib session_7_plus_3)))
  = true /\
  exists p : number,
    prev (Shell.state (Shell.session Shell.stub_lib session_7_plus_3))
    = Some p /\
    isFinite p = true /\
    Shell.tapeText (Shell.state (Shell.session Shell.stub_lib session_7_plus_3))
    = Number_toString p ++ " "
      ++ str_of (op (Shell.state
                       (Shell.session Shell.stub_lib session_7_plus_3))).
Proof.
  split; [reflexivity|]. split; [reflexivity|]. split; [reflexivity|].
  apply (pending_operation_shows_on_tape Shell.stub_lib session_7_plus_3);
    reflexivity.
Defined.

(** Without the restriction the tape can be empty with an operator pending:
    after [1 / 0 + pi sqrt =] the shell has cleared the error flag and [+] is
    pending without a left operand. *)
Example tape_after_unary_evaluation :
  forallb engine_event (session_error_then_sqrt_pi ++ [Shell.Equal]) = false /\
  error (Shell.state
           (Shell.session Shell.stub_lib
              (session_error_then_sqrt_pi ++ [Shell.Equal]))) = false /\
  op (Shell.state
        (Shell.session Shell.stub_lib
           (session_error_then_sqrt_pi ++ [Shell.Equal]))) = Some "+" /\
  Shell.tapeText
    (Shell.state
       (Shell.session Shell.stub_lib
          (session_error_then_sqrt_pi ++ [Shell.Equal]))) = EmptyString.
Proof. vm_compute. repeat split; reflexivity. Qed.

Example tape_of_seven_plus : Shell.tapeText (run keys_7_plus_3) = "7 +".
Proof. vm_compute. reflexivity. Qed.

(** ** The word Error on the display *)

Lemma str_all_slice_but_last (p : ascii -> bool) (s : string) :
  str_all p s = true -> str_all p (slice_but_last s) = true.
Proof.
  induction s as [|x r IH]; [trivial|].
  intros H. cbn [str_all] in H. apply andb_true_iff in H as [Hx Hr].
  destruct r as [|y r']; [reflexivity|].
  change (slice_but_last (String x (String y r')))
    with (String x (slice_but_last (String y r'))).
  cbn [str_all]. now rewrite Hx, IH.
Qed.

Lemma str_all_toggled (s : string) :
  str_all not_E s = true -> str_all not_E (toggled s) = true.
Proof.
  intros H. unfold toggled.
  destruct (startsWith s "-"); [|exact H].
  destruct s as [|x r]; [reflexivity|].
  cbn [str_all] in H. now apply andb_true_iff in H as [_ Hr].
Qed.

Lemma error_display_computed (res : number) (state' : State) :
  display state' = formatNumber res ->
  error state' = String.eqb (formatNumber res) "Error" ->
  (isFinite res = false ->
   prev state' = None /\ lastOp state' = None /\ lastOperand state' = None /\
   rightLabel state' = None /\ rightValue state' = None) ->
  error_display state'.
Proof.
  intros Hd He Hrest. rewrite formatNumber_Error in He.
  destruct (isFinite res) eqn:Hfin.
  - left. rewrite Hd. now apply str_all_formatNumber.
  - right. rewrite Hd, He. unfold formatNumber. rewrite Hfin.
    split; [reflexivity|]. split; [reflexivity|]. now apply Hrest.
Qed.

Ltac computed_display res :=
  apply (error_display_computed res); cbn;
  [reflexivity | reflexivity |
   let Hf := fresh "Hf" in
   intros Hf; rewrite ?formatNumber_Error, ?Hf; cbn; auto].

Lemma press_error_display (state : State) (k : Key) :
  error_display state -> error_display (press state k).
Proof.
  intros Inv.
  assert (Hinit : error_display createInitialState) by (left; reflexivity).
  destruct (error state) eqn:Herr.
  - destruct k; cbn [press];
      unfold inputDigit, inputDot, setOperator, toggleSign, backspace,
        clearAll, evaluate, percent;
      rewrite ?Herr; exact Hinit.
  - assert (Hd : str_all not_E (display state) = true).
    { destruct Inv as [H | (_ & H & _)]; [exact H | congruence]. }
    assert (Hkeep : forall s', display s' = display state -> error_display s')
      by (intros s' E; left; now rewrite E).
    destruct k as [d| |o| | | | |]; cbn [press].
    + unfold inputDigit. rewrite Herr. branches; auto; left; cbn [display].
      * apply str_all_decimal.
      * rewrite str_all_app. fold not_E. rewrite Hd. apply str_all_decimal.
    + unfold inputDot. rewrite Herr. branches; auto; left; cbn [display].
      * reflexivity.
      * rewrite str_all_app. fold not_E. now rewrite Hd.
    + unfold setOperator. rewrite Herr.
      destruct (truthy (op state) && negb (overwrite state)); [|now apply Hkeep].
      cbv zeta.
      computed_display
        (compute (nullish (prev state) (toNumber (display state)))
           (staged_or_display state) (str_of (op state))).
    + unfold toggleSign. rewrite Herr. branches; auto; left;
        cbn [with_display display]; now apply str_all_toggled.
    + unfold backspace. rewrite Herr. branches; left;
        cbn [with_display display]; try reflexivity.
      now apply str_all_slice_but_last.
    + exact Hinit.
    + unfold evaluate. rewrite Herr. cbv zeta.
      destruct (truthy (op state) && truthy (rightLabel state)).
      { computed_display
          (compute (nullish (prev state) (toNumber (display state)))
             (nullish (rightValue state) (toNumber (display state)))
             (str_of (op state))). }
      destruct (negb (truthy (op state)) && truthy (rightLabel state)).
      { computed_display
          (nullish (rightValue state)
             (div (toNumber (display state)) (of_Z 100))). }
      destruct (truthy (op state)).
      { computed_display
          (compute (nullish (prev state) (toNumber (display state)))
             (staged_or_display state) (str_of (op state))). }
      destruct (lastOperand state) as [operand|]; [|exact Inv].
      destruct (truthy (lastOp state)); [|exact Inv].
      computed_display
        (compute (toNumber (display state)) operand (str_of (lastOp state))).
    + unfold percent. rewrite Herr. now apply Hkeep.
Qed.

(** X4: in every state that the transition functions of the engine reach
    from the initial state, the display reads "Error" only in a state that
    has the error flag and holds no operand ([prev], [lastOp],
    [lastOperand], [rightLabel] and [rightValue] are all [null]); no other
    display contains the letter E.  (The unary functions of the shell write
    the display themselves and are not among these keys.) *)
Theorem Error_is_displayed_only_with_the_flag (keys : list Key) :
  (display (run keys) = "Error" ->
   error (run keys) = true /\ prev (run keys) = None /\
   lastOp (run keys) = None /\ lastOperand (run keys) = None /\
   rightLabel (run keys) = None /\ rightValue (run keys) = None) /\
  (includes (display (run keys)) "E" = true -> display (run keys) = "Error").
Proof.
  assert (Inv : error_display (run keys)).
  { apply run_invariant.
    - left. reflexivity.
    - intros state k. apply press_error_display. }
  assert (Hno : forall s, str_all not_E s = true -> includes s "E" = false).
  { induction s as [|x r IH]; [reflexivity|].
    cbn [str_all includes]. intros H. apply andb_true_iff in H as [Hx Hr].
    unfold not_E in Hx. apply negb_true_iff in Hx. now rewrite Hx, IH. }
  destruct Inv as [H | (Hd & Hrest)].
  - split.
    + intros E. rewrite E in H. discriminate H.
    + intros Hin. apply Hno in H. congruence.
  - split; [intros _; exact Hrest | intros _; exact Hd].
Qed.

Lemma Error_is_displayed_only_with_the_flag_witness :
  display (run keys_division_by_zero) = "Error" /\
  includes (display (run keys_division_by_zero)) "E" = true /\
  (error (run keys_division_by_zero) = true /\
   prev (run keys_division_by_zero) = None /\
   lastOp (run keys_division_by_zero) = None /\
   lastOperand (run keys_division_by_zero) = None /\
   rightLabel (run keys_division_by_zero) = None /\
   rightValue (run keys_division_by_zero) = None).
Proof.
  split; [reflexivity|]. split; [reflexivity|].
  apply (proj1 (Error_is_displayed_only_with_the_flag keys_division_by_zero)).
  reflexivity.
Defined.

(** ** Decimal points on the display *)

Section DigitStrings.

Variable p : ascii -> bool.
Hypothesis p_digits : forall d : Z, p (digit_char d) = true.

Lemma digits_fuel_all (fuel : nat) (z : Z) (acc : string) :
  str_all p acc = true -> str_all p (digits_fuel fuel z acc) = true.
Proof.
  revert z acc. induction fuel as [|f IH]; intros z acc Hacc; cbn; trivial.
  assert (H : str_all p (String (digit_char z) acc) = true)
    by (cbn; now rewrite p_digits).
  destruct (z <? 10); [exact H | now apply IH].
Qed.

Lemma decimal_all (z : Z) : str_all p (decimal z) = true.
Proof. unfold decimal. now apply digits_fuel_all. Qed.

Lemma zeros_all (n : nat) : str_all p (zeros n) = true.
Proof.
  induction n as [|n IH]; [reflexivity|].
  cbn [zeros str_all]. rewrite IH. change "0"%char with (digit_char 0).
  now rewrite p_digits.
Qed.

End DigitStrings.

Lemma not_point_digit_char (d : Z) : not_point (digit_char d) = true.
Proof.
  unfold digit_char.
  destruct (Z.to_nat (d mod 10)) as [|[|[|[|[|[|[|[|[|n]]]]]]]]]; reflexivity.
Qed.

Lemma points_app (a b : string) :
  points (a ++ b) = (points a + points b)%nat.
Proof.
  induction a as [|x a IH]; [reflexivity|].
  cbn [append points]. rewrite IH. lia.
Qed.

Lemma points_none (s : string) : str_all not_point s = true -> points s = 0%nat.
Proof.
  induction s as [|x r IH]; [reflexivity|].
  cbn [str_all points]. intros H. apply andb_true_iff in H as [Hx Hr].
  unfold not_point in Hx. apply negb_true_iff in Hx. rewrite Hx.
  now rewrite IH.
Qed.

Lemma includes_points (s : string) :
  includes s "." = false -> points s = 0%nat.
Proof.
  induction s as [|x r IH]; [reflexivity|].
  cbn [includes points]. intros H. apply orb_false_iff in H as [Hx Hr].
  rewrite Hx. now rewrite IH.
Qed.

Lemma points_slice_but_last (s : string) :
  (points (slice_but_last s) <= points s)%nat.
Proof.
  induction s as [|x r IH]; [cbn; lia|].
  destruct r as [|y r']; [cbn; lia|].
  change (slice_but_last (String x (String y r')))
    with (String x (slice_but_last (String y r'))).
  cbn [points] in *. lia.
Qed.

Lemma points_toggled (s : string) : (points (toggled s) <= points s)%nat.
Proof.
  unfold toggled. destruct (startsWith s "-") eqn:H.
  - destruct s as [|x r]; [cbn; lia|]. cbn [slice_from1 points]. lia.
  - cbn. lia.
Qed.

Lemma points_strip_zeros (s : string) :
  (points (strip_zeros s) <= points s)%nat.
Proof.
  induction s as [|x r IH]; [cbn; lia|].
  cbn [strip_zeros]. destruct (strip_zeros r) as [|y r'].
  - destruct (Ascii.eqb x "0") eqn:Hx; cbn [points] in *; [lia|lia].
  - cbn [points] in *. lia.
Qed.

Lemma points_replace_point_zeros (s : string) :
  (points (replace_point_zeros s) <= points s)%nat.
Proof.
  induction s as [|x r IH]; [cbn; lia|].
  cbn [replace_point_zeros].
  destruct (Ascii.eqb x "." && negb (is_empty r) && all_zeros r);
    cbn [points]; lia.
Qed.

Lemma points_replace_trailing_zeros (s : string) :
  (points (replace_trailing_zeros s) <= points s)%nat.
Proof.
  induction s as [|x r IH]; [cbn; lia|].
  cbn [replace_trailing_zeros].
  destruct (Ascii.eqb x "." && str_all is_digit r && ends_with_zero r);
    cbn [points]; [pose proof (points_strip_zeros r)|]; lia.
Qed.

Lemma group_not_point (s : string) :
  str_all not_point s = true -> str_all not_point (group s) = true.
Proof.
  induction s as [|x r IH]; [trivial|].
  cbn [group str_all]. intros H. apply andb_true_iff in H as [Hx Hr].
  rewrite Hx. cbn [andb].
  match goal with |- context [if ?c then _ else _] => destruct c end; auto.
Qed.

Lemma points_around (a b : string) :
  str_all not_point a = true -> str_all not_point b = true ->
  (points (a ++ "." ++ b) <= 1)%nat.
Proof.
  intros Ha Hb. rewrite points_app. change ("." ++ b) with (String "." b).
  cbn [points]. rewrite Ascii.eqb_refl, (points_none a Ha), (points_none b Hb).
  lia.
Qed.

Lemma exponent_not_point (e : Z) :
  str_all not_point
    ("e" ++ (if 0 <=? e then "+" else "-") ++ decimal (Z.abs e)) = true.
Proof.
  destruct (0 <=? e); cbn [append str_all];
    (apply andb_true_intro; split; [reflexivity|]);
    (apply andb_true_intro; split; [reflexivity|]);
    apply decimal_all, not_point_digit_char.
Qed.

Lemma points_layout (ds : string) (n : Z) :
  str_all not_point ds = true -> (points (layout ds n) <= 1)%nat.
Proof.
  intros H. unfold layout.
  pose proof (exponent_not_point (n - 1)) as He.
  destruct ((-6 <? n) && (n <=? 21)).
  - destruct (Z.of_nat (length ds) <=? n); [|destruct (0 <? n)].
    + rewrite (points_none (ds ++ _)); [lia|].
      rewrite str_all_app, H. apply zeros_all, not_point_digit_char.
    + apply points_around; [now apply str_all_take | now apply str_all_drop].
    + change ("0." ++ zeros (Z.to_nat (- n)) ++ ds)
        with ("0" ++ "." ++ (zeros (Z.to_nat (- n)) ++ ds)).
      apply points_around; [reflexivity|].
      rewrite str_all_app, H, (zeros_all _ not_point_digit_char). reflexivity.
  - cbv zeta. destruct (Z.of_nat (length ds) =? 1).
    + rewrite (points_none (ds ++ _)); [lia|]. now rewrite str_all_app, H.
    + apply points_around; [now apply str_all_take|].
      rewrite str_all_app, He. now rewrite str_all_drop.
Qed.

Lemma points_Number_toString (x : number) :
  (points (Number_toString x) <= 1)%nat.
Proof.
  destruct x as [s|s| |s m e]; unfold Number_toString.
  - cbn. lia.
  - destruct s; cbn; lia.
  - cbn. lia.
  - destruct (magnitude m e) as [P Q].
    destruct (shortest 16 (S754_finite false m e) P Q (decimal_exponent P Q) 1)
      as [d n].
    rewrite points_app.
    pose proof (points_layout (decimal d) n
                  (decimal_all _ not_point_digit_char d)).
    destruct s;
      [change (points "-") with 0%nat | change (points "") with 0%nat]; lia.
Qed.

Lemma points_toLocaleString (p : Z) (x : number) :
  (points (toLocaleString_enUS p x) <= 1)%nat.
Proof.
  destruct x as [s|s| |s m e]; unfold toLocaleString_enUS.
  - destruct s; cbn; lia.
  - destruct s; cbn; lia.
  - cbn. lia.
  - destruct (magnitude m e) as [P Q].
    assert (Hds : str_all not_point
                    (fst (significant p (S754_finite false m e) P Q)) = true).
    { unfold significant.
      destruct (shortest 16 (S754_finite false m e) P Q
                  (decimal_exponent P Q) 1) as [d n0].
      cbv zeta.
      match goal with
      | |- context [if ?c =? _ then _ else _] => destruct (c =? _)
      end;
        apply str_all_strip_zeros, decimal_all, not_point_digit_char. }
    destruct (significant p (S754_finite false m e) P Q) as [ds n].
    cbn [fst] in Hds.
    rewrite points_app.
    match goal with
    | |- (_ + points ?body <= 1)%nat =>
        assert (Hbody : (points body <= 1)%nat)
    end.
    { destruct (n <=? 0); [|destruct (Z.of_nat (length ds) <=? n)].
      - change ("0." ++ zeros (Z.to_nat (- n)) ++ ds)
          with ("0" ++ "." ++ (zeros (Z.to_nat (- n)) ++ ds)).
        apply points_around; [reflexivity|].
        rewrite str_all_app, Hds, (zeros_all _ not_point_digit_char).
        reflexivity.
      - rewrite (points_none (group _)); [lia|]. apply group_not_point.
        rewrite str_all_app, Hds. apply zeros_all, not_point_digit_char.
      - apply points_around;
          [now apply group_not_point, str_all_take | now apply str_all_drop]. }
    destruct s;
      [change (points "-") with 0%nat | change (points "") with 0%nat]; lia.
Qed.

Lemma points_formatNumber (n : number) : (points (formatNumber n) <= 1)%nat.
Proof.
  unfold formatNumber. destruct (negb (isFinite n)); [cbn; lia|].
  cbv zeta. set (s := div _ _).
  destruct (includes (Number_toString s) "e"); [apply points_toLocaleString|].
  destruct (includes (Number_toString s) ".");
    [|apply points_Number_toString].
  pose proof (points_replace_trailing_zeros
                (replace_point_zeros (Number_toString s))).
  pose proof (points_replace_point_zeros (Number_toString s)).
  pose proof (points_Number_toString s). lia.
Qed.

Lemma press_points (state : State) (k : Key) :
  (points (display state) <= 1)%nat ->
  (points (display (press state k)) <= 1)%nat.
Proof.
  intros Inv.
  assert (Hdigit : forall d, points (String_ d) = 0%nat)
    by (intros d; apply points_none, decimal_all, not_point_digit_char).
  destruct k as [d| |o| | | | |]; cbn [press].
  - unfold inputDigit. branches; cbn [display]; rewrite ?points_app, ?Hdigit;
      try (cbn; lia); lia.
  - unfold inputDot. branches; cbn [display]; try (cbn; lia); try lia.
    rewrite points_app, (includes_points (display state)) by assumption.
    cbn. lia.
  - unfold setOperator. cbv zeta. branches; cbn [display];
      try apply points_formatNumber; try (cbn; lia); lia.
  - unfold toggleSign. branches; cbn [with_display display];
      try (cbn; lia); try lia;
      pose proof (points_toggled (display state)); lia.
  - unfold backspace. branches; cbn [with_display display];
      try (cbn; lia); try lia.
    pose proof (points_slice_but_last (display state)). lia.
  - cbn. lia.
  - unfold evaluate. cbv zeta. branches; cbn [display];
      try apply points_formatNumber; try (cbn; lia); lia.
  - unfold percent. cbv zeta. branches; cbn [display]; try (cbn; lia); lia.
Qed.

(** X5: in every state reached from the initial state, whatever the keys,
    the display holds at most one decimal point. *)
Theorem display_has_at_most_one_point (keys : list Key) :
  (points (display (run keys)) <= 1)%nat.
Proof.
  apply (run_invariant (fun s => (points (display s) <= 1)%nat)).
  - cbn. lia.
  - intros state k. apply press_points.
Qed.

(** ** Digit entry *)

Lemma append_empty_r (s : string) : s ++ EmptyString = s.
Proof. induction s as [|x r IH]; cbn; [reflexivity | now rewrite IH]. Qed.

Lemma append_assoc (a b c : string) : (a ++ b) ++ c = a ++ (b ++ c).
Proof. induction a as [|x a IH]; cbn; [reflexivity | now rewrite IH]. Qed.

Lemma digits_text_app (l1 l2 : list nat) :
  digits_text (l1 ++ l2)%list = digits_text l1 ++ digits_text l2.
Proof.
  induction l1 as [|d l1 IH]; cbn [digits_text app]; [reflexivity|].
  now rewrite IH, append_assoc.
Qed.

Lemma length_digits_text (l : list nat) :
  Forall (fun d => (d <= 9)%nat) l ->
  length (digits_text l) = List.length l.
Proof.
  induction 1 as [|d l Hd Hl IH]; [reflexivity|].
  cbn [digits_text List.length].
  now rewrite length_app, length_String_digit, IH.
Qed.

Lemma digits_text_not_zero (x : nat) (l : list nat) :
  x <> O -> (x <= 9)%nat -> String.eqb (digits_text (x :: l)) "0" = false.
Proof.
  intros Hx Hle. cbn [digits_text].
  do 10 (destruct x as [|x]; [try contradiction; reflexivity|]). lia.
Qed.

Lemma skip_zeros_app (ds : list nat) (d : nat) :
  skip_zeros (ds ++ [d])%list
  = match skip_zeros ds with
    | [] => skip_zeros [d]
    | sig => (sig ++ [d])%list
    end.
Proof.
  induction ds as [|x ds IH]; [reflexivity|].
  destruct x as [|x]; [exact IH | reflexivity].
Qed.

Lemma skip_zeros_head (ds : list nat) (x : nat) (r : list nat) :
  skip_zeros ds = x :: r -> x <> O.
Proof.
  induction ds as [|y ds IH]; [discriminate|].
  destruct y as [|y]; [exact IH|]. cbn. intros E. injection E as <- _. lia.
Qed.

Lemma skip_zeros_Forall (P : nat -> Prop) (ds : list nat) :
  Forall P ds -> Forall P (skip_zeros ds).
Proof.
  induction 1 as [|y ds Hy Hds IH]; [constructor|].
  destruct y as [|y]; [exact IH | now constructor].
Qed.

Lemma Forall_first (P : nat -> Prop) (n : nat) (l : list nat) :
  Forall P l -> Forall P (firstn n l).
Proof.
  revert l. induction n as [|n IH]; intros l H; [constructor|].
  destruct H as [|x l Hx Hl]; [constructor|].
  cbn [firstn]. constructor; auto.
Qed.

(** One more digit on a display that digit entry produced. *)
Lemma shown_app (ds : list nat) (d : nat) :
  Forall (fun d => (d <= 9)%nat) (ds ++ [d])%list ->
  shown (ds ++ [d])%list
  = if String.eqb (shown ds) "0" then String_ d
    else if (16 <=? length (shown ds))%nat then shown ds
    else shown ds ++ String_ d.
Proof.
  intros Hall. apply Forall_app in Hall as [Hds Hd].
  unfold shown. rewrite skip_zeros_app.
  pose proof (skip_zeros_Forall _ _ Hds) as Hsig.
  destruct (skip_zeros ds) as [|x r] eqn:Hskip.
  - cbn [String.eqb]. destruct d as [|d]; cbn [skip_zeros]; [reflexivity|].
    cbn [firstn digits_text]. apply append_empty_r.
  - pose proof (skip_zeros_head _ _ _ Hskip) as Hx.
    assert (Hx9 : (x <= 9)%nat) by now inversion Hsig.
    assert (Hfirst : firstn 16 (x :: r) = x :: firstn 15 r) by reflexivity.
    rewrite Hfirst at 1. rewrite digits_text_not_zero by assumption.
    cbn [app]. change (x :: (r ++ [d])%list) with ((x :: r) ++ [d])%list.
    rewrite length_digits_text by now apply Forall_first.
    rewrite length_firstn.
    destruct (16 <=? Nat.min 16 (List.length (x :: r)))%nat eqn:Hfull.
    + apply Nat.leb_le in Hfull.
      rewrite firstn_app.
      replace (16 - List.length (x :: r))%nat with O by lia.
      now rewrite app_nil_r.
    + apply Nat.leb_gt in Hfull.
      rewrite (firstn_all2 (x :: r)) by lia.
      rewrite firstn_all2 by (rewrite List.length_app; cbn [List.length] in *; lia).
      rewrite digits_text_app. cbn [digits_text].
      now rewrite append_empty_r.
Qed.

Lemma inputDigit_on_entry (D : string) (d : nat) :
  inputDigit (with_display createInitialState D) d
  = with_display createInitialState
      (if String.eqb D "0" then String_ d
       else if (16 <=? length D)%nat then D
       else D ++ String_ d).
Proof.
  unfold inputDigit. cbn [with_display createInitialState error overwrite
                           display orb].
  destruct (String.eqb D "0"); [reflexivity|].
  destruct (16 <=? length D)%nat; reflexivity.
Qed.

(** X6: typing digits from the initial state shows the digits typed, without
    their leading zeros and cut after the sixteenth; nothing else of the
    state changes. *)
Theorem digit_entry_shows_the_digits (ds : list nat) :
  Forall (fun d => (d <= 9)%nat) ds ->
  run (map KDigit ds) = with_display createInitialState (shown ds).
Proof.
  induction ds as [|d ds IH] using rev_ind; intros Hall; [reflexivity|].
  unfold run in *. rewrite map_app, fold_left_app. cbn [map fold_left press].
  rewrite IH by (apply Forall_app in Hall; tauto).
  now rewrite inputDigit_on_entry, shown_app.
Qed.

Lemma digit_entry_shows_the_digits_witness :
  Forall (fun d => (d <= 9)%nat) [0; 0; 4; 2; 0]%nat /\
  run (map KDigit [0; 0; 4; 2; 0]%nat)
  = with_display createInitialState "420".
Proof.
  assert (H : Forall (fun d => (d <= 9)%nat) [0; 0; 4; 2; 0]%nat)
    by (repeat constructor).
  split; [exact H|].
  exact (digit_entry_shows_the_digits [0; 0; 4; 2; 0]%nat H).
Defined.

(** ** Backspace after typing *)

Lemma slice_but_last_app (s : string) (c : ascii) :
  slice_but_last (s ++ String c EmptyString) = s.
Proof.
  induction s as [|x r IH]; [reflexivity|].
  cbn [append]. destruct r as [|y r'].
  - reflexivity.
  - change (slice_but_last (String x (String y r' ++ String c EmptyString)))
      with (String x (slice_but_last (String y r' ++ String c EmptyString))).
    now rewrite IH.
Qed.

Lemma String_digit_char (d : nat) :
  (d <= 9)%nat -> exists c : ascii, String_ d = String c EmptyString.
Proof.
  intros Hd. do 10 (destruct d as [|d]; [eexists; reflexivity|]). lia.
Qed.

Lemma backspace_after_char (state : State) (c : ascii) :
  error state = false ->
  overwrite state = false ->
  display state <> EmptyString ->
  display state <> "-" ->
  backspace
    {| display := display state ++ String c EmptyString;
       prev := prev state; op := op state; overwrite := overwrite state;
       lastOp := lastOp state; lastOperand := lastOperand state;
       error := error state; rightLabel := None; rightValue := None |}
  = {| display := display state;
       prev := prev state; op := op state; overwrite := overwrite state;
       lastOp := lastOp state; lastOperand := lastOperand state;
       error := error state; rightLabel := None; rightValue := None |}.
Proof.
  intros Herr Hov Hne Hminus. unfold backspace.
  cbn [error overwrite display]. rewrite Herr, Hov.
  destruct (display state) as [|x r] eqn:HD; [now contradiction Hne|].
  assert (Hshort :
    (length (String x r ++ String c EmptyString) <=? 1)%nat
    || ((length (String x r ++ String c EmptyString) =? 2)%nat
        && startsWith (String x r ++ String c EmptyString) "-") = false).
  { rewrite length_app. cbn [length append startsWith].
    destruct r as [|y r']; cbn [length Nat.add Nat.leb Nat.eqb orb andb].
    - destruct (Ascii.eqb_spec x "-") as [-> | _];
        [now contradiction Hminus | reflexivity].
    - rewrite Nat.add_comm. reflexivity. }
  rewrite Hshort. unfold with_display. cbn [display prev op overwrite lastOp
    lastOperand error rightLabel rightValue].
  now rewrite slice_but_last_app.
Qed.

(** X7: backspace undoes the last character typed.  In a state without
    error flag, overwrite mode or staged percent, whose display is neither
    empty nor a lone minus sign: typing a digit (on a display of fewer than
    16 characters) or the decimal point (on a display without one) and then
    pressing backspace gives the state back. *)
Theorem backspace_undoes_typing (state : State) (d : nat) :
  error state = false ->
  overwrite state = false ->
  rightLabel state = None ->
  rightValue state = None ->
  display state <> EmptyString ->
  display state <> "-" ->
  ((d <= 9)%nat -> (length (display state) < 16)%nat ->
   backspace (inputDigit state d) = state) /\
  (includes (display state) "." = false ->
   backspace (inputDot state) = state).
Proof.
  intros Herr Hov Hl Hv Hne Hminus.
  pose proof (fun c => backspace_after_char state c Herr Hov Hne Hminus) as Hb.
  destruct state as [D pv o ov lo ld er rl rv]. cbn in *. subst.
  split.
  - intros Hd Hlen. destruct (String_digit_char d Hd) as [c Hc].
    unfold inputDigit. cbn [error overwrite display orb].
    destruct (String.eqb_spec D "0") as [-> | Hnz].
    + rewrite Hc. reflexivity.
    + apply Nat.leb_gt in Hlen. rewrite Hlen, Hc. apply Hb.
  - intros Hpoint. unfold inputDot. cbn [error overwrite display].
    rewrite Hpoint. apply (Hb "."%char).
Qed.

Lemma backspace_undoes_typing_witness :
  error (run [KDigit 4; KDigit 2]) = false /\
  overwrite (run [KDigit 4; KDigit 2]) = false /\
  rightLabel (run [KDigit 4; KDigit 2]) = None /\
  rightValue (run [KDigit 4; KDigit 2]) = None /\
  display (run [KDigit 4; KDigit 2]) <> EmptyString /\
  display (run [KDigit 4; KDigit 2]) <> "-" /\
  (7 <= 9)%nat /\
  (length (display (run [KDigit 4; KDigit 2])) < 16)%nat /\
  includes (display (run [KDigit 4; KDigit 2])) "." = false /\
  backspace (inputDigit (run [KDigit 4; KDigit 2]) 7)
  = run [KDigit 4; KDigit 2] /\
  backspace (inputDot (run [KDigit 4; KDigit 2])) = run [KDigit 4; KDigit 2].
Proof.
  assert (H1 : display (run [KDigit 4; KDigit 2]) <> EmptyString)
    by (vm_compute; discriminate).
  assert (H2 : display (run [KDigit 4; KDigit 2]) <> "-")
    by (vm_compute; discriminate).
  assert (H3 : (7 <= 9)%nat) by lia.
  assert (H4 : (length (display (run [KDigit 4; KDigit 2])) < 16)%nat)
    by (vm_compute; lia).
  pose proof (backspace_undoes_typing (run [KDigit 4; KDigit 2]) 7
                eq_refl eq_refl eq_refl eq_refl H1 H2) as [Hd Hp].
  split; [reflexivity|]. split; [reflexivity|]. split; [reflexivity|].
  split; [reflexivity|]. split; [exact H1|]. split; [exact H2|].
  split; [exact H3|]. split; [exact H4|]. split; [reflexivity|].
  split; [exact (Hd H3 H4) | exact (Hp eq_refl)].
Defined.

(** ** Operators and repeated equals *)

(** X8: a second operator pressed right after a first one replaces the
    pending operator without computing anything: the display, [lastOp] and
    [lastOperand] stay as the first press left them, and the left operand is
    read again from the display. *)
Theorem operator_can_be_changed (state : State) (o1 o2 : string) :
  error (setOperator state o1) = false ->
  setOperator (setOperator state o1) o2
  = {| display := display (setOperator state o1);
       prev := Some (toNumber (display (setOperator state o1)));
       op := Some o2;
       overwrite := true;
       lastOp := lastOp (setOperator state o1);
       lastOperand := lastOperand (setOperator state o1);
       error := false;
       rightLabel := None;
       rightValue := None |}.
Proof.
  intros Herr.
  assert (Hov : overwrite (setOperator state o1) = true
                \/ setOperator state o1 = createInitialState).
  { unfold setOperator. branches; auto. }
  assert (Hl : rightLabel (setOperator state o1) = None).
  { unfold setOperator. branches; reflexivity. }
  destruct Hov as [Hov | Hinit].
  - unfold setOperator at 1. rewrite Herr, Hov.
    rewrite andb_false_r. unfold staged_or_display. rewrite Hl. reflexivity.
  - rewrite Hinit. reflexivity.
Qed.

Lemma operator_can_be_changed_witness :
  error (setOperator (run [KDigit 1; KOperator "/"; KDigit 3]) "+") = false /\
  setOperator (setOperator (run [KDigit 1; KOperator "/"; KDigit 3]) "+") "-"
  = {| display := "0.333333333333";
       prev := Some (Number "0.333333333333");
       op := Some "-";
       overwrite := true;
       lastOp := Some "/";
       lastOperand := Some (of_Z 3);
       error := false;
       rightLabel := None;
       rightValue := None |}.
Proof.
  split; [reflexivity|].
  exact (operator_can_be_changed (run [KDigit 1; KOperator "/"; KDigit 3])
           "+" "-" eq_refl).
Defined.

(** X9: when [evaluate] computes a finite result for a pending operator,
    a second [evaluate] applies the same operator and right operand to the
    number read back from the display, that is, to the formatted first
    result and not to the stored [prev]. *)
Theorem equals_again_repeats (state : State) :
  error state = false ->
  truthy (op state) = true ->
  isFinite
    (compute (nullish (prev state) (toNumber (display state)))
       (staged_or_display state) (str_of (op state))) = true ->
  let b := staged_or_display state in
  let res :=
    compute (nullish (prev state) (toNumber (display state))) b
      (str_of (op state)) in
  display (evaluate state) = formatNumber res /\
  lastOp (evaluate state) = op state /\
  lastOperand (evaluate state) = Some b /\
  display (evaluate (evaluate state))
  = formatNumber (compute (toNumber (formatNumber res)) b (str_of (op state))).
Proof.
  intros Herr Hop Hfin b res.
  assert (Hfirst :
    evaluate state
    = {| display := formatNumber res; prev := Some res; op := None;
         overwrite := true; lastOp := op state; lastOperand := Some b;
         error := false; rightLabel := None; rightValue := None |}).
  { unfold evaluate. rewrite Herr, Hop. cbn [andb negb].
    destruct (truthy (rightLabel state)) eqn:Hl; cbv zeta.
    - replace (nullish (rightValue state) (toNumber (display state)))
        with b by (unfold b, staged_or_display; now rewrite Hl).
      fold res. rewrite formatNumber_Error. unfold res, b. now rewrite Hfin.
    - fold b. fold res. rewrite formatNumber_Error. unfold res, b.
      now rewrite Hfin. }
  rewrite Hfirst. cbn [display lastOp lastOperand].
  repeat split.
  unfold evaluate. cbn [error op rightLabel lastOperand lastOp display truthy
                         andb negb]. now rewrite Hop.
Qed.

Lemma equals_again_repeats_witness :
  error (run keys_7_plus_3) = false /\
  truthy (op (run keys_7_plus_3)) = true /\
  isFinite (compute (of_Z 7) (of_Z 3) "+") = true /\
  display (evaluate (run keys_7_plus_3)) = "10" /\
  lastOp (evaluate (run keys_7_plus_3)) = Some "+" /\
  lastOperand (evaluate (run keys_7_plus_3)) = Some (of_Z 3) /\
  display (evaluate (evaluate (run keys_7_plus_3))) = "13".
Proof.
  split; [reflexivity|]. split; [reflexivity|]. split; [reflexivity|].
  exact (equals_again_repeats (run keys_7_plus_3) eq_refl eq_refl eq_refl).
Defined.

(** The repeat re-reads the display: after [1 / 3 =] the stored result is
    the binary64 third, but a second [=] divides the twelve-digit display. *)
Example equals_again_uses_the_display :
  prev (run [KDigit 1; KOperator "/"; KDigit 3; KEvaluate])
  = Some (div (of_Z 1) (of_Z 3)) /\
  prev (run [KDigit 1; KOperator "/"; KDigit 3; KEvaluate; KEvaluate])
  = Some (div (Number "0.333333333333") (of_Z 3)) /\
  div (Number "0.333333333333") (of_Z 3)
  <> div (div (of_Z 1) (of_Z 3)) (of_Z 3).
Proof.
  split; [vm_compute; reflexivity|]. split; [vm_compute; reflexivity|].
  vm_compute. discriminate.
Qed.

(** ** [formatNumber] and [preview], further *)

Lemma includes_no_E (s : string) :
  str_all not_E s = true -> includes s "E" = false.
Proof.
  induction s as [|x r IH]; [reflexivity|].
  cbn [str_all includes]. intros H. apply andb_true_iff in H as [Hx Hr].
  unfold not_E in Hx. apply negb_true_iff in Hx. now rewrite Hx, IH.
Qed.

(** X10: [formatNumber] returns "Error" for the numbers that are not finite
    and for no other: the text of a finite number is never "Error" (it does
    not even contain the letter E), so the test [formatted === 'Error'] of
    the compute branches is exact. *)
Theorem formatNumber_is_Error_exactly_when_not_finite (n : number) :
  (formatNumber n = "Error" <-> isFinite n = false) /\
  (isFinite n = true -> includes (formatNumber n) "E" = false).
Proof.
  pose proof (formatNumber_Error n) as H.
  split.
  - destruct (isFinite n); cbn [negb] in H.
    + apply String.eqb_neq in H. split; [intros E; now contradiction H|].
      discriminate.
    + apply String.eqb_eq in H. now split.
  - intros Hfin. now apply includes_no_E, str_all_formatNumber.
Qed.

Lemma formatNumber_is_Error_exactly_when_not_finite_witness :
  isFinite (Number "2.5") = true /\
  includes (formatNumber (Number "2.5")) "E" = false.
Proof.
  split; [vm_compute; reflexivity|].
  apply (proj2 (formatNumber_is_Error_exactly_when_not_finite (Number "2.5"))).
  vm_compute. reflexivity.
Defined.

(** X11: the operands [preview] reports are the ones [evaluate] computes
    with.  In a non-error state with a preview [p]: for a standalone percent
    [p.a] and [p.op] are [null] and [evaluate] displays [p.b] formatted; in
    every other kind [p.a] is a number, [p.op] an operator, and [evaluate]
    displays [compute(p.a, p.b, p.op)] formatted.  So the history line
    [a op b = display] states a true equation in every kind with an
    operator. *)
Theorem preview_operands_are_evaluated (state : State) (p : Preview) :
  error state = false ->
  preview state = Some p ->
  (p_kind p = "percentUnary" /\ p_a p = None /\ p_op p = None /\
   display (evaluate state) = formatNumber (p_b p))
  \/
  (exists a : number,
     p_a p = Some a /\ truthy (p_op p) = true /\
     display (evaluate state)
     = formatNumber (compute a (p_b p) (str_of (p_op p)))).
Proof.
  intros Herr Hp. unfold preview in Hp. unfold evaluate. rewrite Herr.
  destruct (truthy (op state)) eqn:Hop;
    destruct (truthy (rightLabel state)) eqn:Hlabel; cbn [andb negb] in *.
  - injection Hp as <-. right. eexists. cbn. repeat split. exact Hop.
  - injection Hp as <-. right. eexists. cbn. unfold staged_or_display.
    rewrite Hlabel. repeat split. exact Hop.
  - injection Hp as <-. left. cbn. repeat split.
  - destruct (lastOperand state) as [operand|]; [|discriminate].
    destruct (truthy (lastOp state)) eqn:Hlast; [|discriminate].
    injection Hp as <-. right. eexists. cbn. repeat split. exact Hlast.
Qed.

Lemma preview_operands_are_evaluated_witness :
  error (run keys_200_plus_10_percent) = false /\
  preview (run keys_200_plus_10_percent) = Some preview_200_plus_10_percent /\
  ((p_kind preview_200_plus_10_percent = "percentUnary" /\
    p_a preview_200_plus_10_percent = None /\
    p_op preview_200_plus_10_percent = None /\
    display (evaluate (run keys_200_plus_10_percent))
    = formatNumber (p_b preview_200_plus_10_percent))
   \/
   (exists a : number,
      p_a preview_200_plus_10_percent = Some a /\
      truthy (p_op preview_200_plus_10_percent) = true /\
      display (evaluate (run keys_200_plus_10_percent))
      = formatNumber
          (compute a (p_b preview_200_plus_10_percent)
             (str_of (p_op preview_200_plus_10_percent))))).
Proof.
  split; [vm_compute; reflexivity|]. split; [vm_compute; reflexivity|].
  apply (preview_operands_are_evaluated (run keys_200_plus_10_percent)
           preview_200_plus_10_percent); vm_compute; reflexivity.
Defined.

(** X12: when there is nothing to preview, there is nothing to evaluate: in
    a non-error state where [preview] returns [null], [evaluate] returns the
    state unchanged, so the shell logs a history line for every [evaluate]
    that changes a non-error state. *)
Theorem nothing_to_preview_nothing_to_evaluate (state : State) :
  error state = false ->
  preview state = None ->
  evaluate state = state.
Proof.
  intros Herr Hp. unfold preview in Hp. unfold evaluate. rewrite Herr.
  destruct (truthy (op state)); [destruct (truthy (rightLabel state));
                                 discriminate|].
  destruct (truthy (rightLabel state)); [discriminate|]. cbn [andb negb] in *.
  destruct (lastOperand state); [|reflexivity].
  destruct (truthy (lastOp state)); [discriminate | reflexivity].
Qed.

Lemma nothing_to_preview_nothing_to_evaluate_witness :
  error (run [KDigit 4; KDigit 2]) = false /\
  preview (run [KDigit 4; KDigit 2]) = None /\
  evaluate (run [KDigit 4; KDigit 2]) = run [KDigit 4; KDigit 2].
Proof.
  split; [reflexivity|]. split; [reflexivity|].
  apply (nothing_to_preview_nothing_to_evaluate (run [KDigit 4; KDigit 2]));
    vm_compute; reflexivity.
Defined.

(** * The earlier revision *)

Lemma revisions_agree_on_a_key (state : State) (k : Key) :
  rightLabel state = None ->
  percent_free k ->
  Rev1.press (forget state) k = forget (press state k) /\
  rightLabel (press state k) = None.
Proof.
  intros Hl Hk. destruct state as [D pv o ov lo ld er rl rv].
  cbn in Hl. subst rl.
  destruct k as [d| |o'| | | | |]; cbn [press Rev1.press];
    try contradiction.
  - unfold inputDigit, Rev1.inputDigit, forget. cbn. branches; split; reflexivity.
  - unfold inputDot, Rev1.inputDot, forget. cbn. branches; split; reflexivity.
  - unfold setOperator, Rev1.setOperator, forget, staged_or_display. cbn.
    branches; split; reflexivity.
  - unfold toggleSign, Rev1.toggleSign, forget. cbn. branches; split; reflexivity.
  - unfold backspace, Rev1.backspace, forget. cbn. branches; split; reflexivity.
  - split; reflexivity.
  - unfold evaluate, Rev1.evaluate, forget, staged_or_display. cbn.
    rewrite !andb_false_r. cbn.
    branches; split; reflexivity.
Qed.

(** X13: the two revisions of the engine differ in the handling of percent
    only: on every sequence of keys without the percent key, the earlier
    revision reaches the state the later one reaches, [rightValue] apart,
    which the later one leaves [null]. *)
Theorem revisions_agree_without_percent (keys : list Key) :
  Forall percent_free keys ->
  Rev1.run keys = forget (run keys) /\ rightValue (run keys) = None.
Proof.
  intros Hkeys. unfold Rev1.run, run.
  assert (H : forall state,
             rightLabel state = None -> rightValue state = None ->
             fold_left Rev1.press keys (forget state)
             = forget (fold_left press keys state)
             /\ rightValue (fold_left press keys state) = None).
  { induction Hkeys as [|k keys Hk Hrest IH]; intros state Hl Hv.
    - split; [reflexivity | exact Hv].
    - cbn [fold_left].
      destruct (revisions_agree_on_a_key state k Hl Hk) as [Hstep Hl'].
      rewrite Hstep. apply IH; [exact Hl'|].
      pose proof (press_staged_pair state k) as Hpair.
      destruct Hpair as [[_ Hv'] | (t & v & Hl'' & _)];
        [left; auto | exact Hv' | congruence]. }
  now apply (H createInitialState).
Qed.

Lemma revisions_agree_without_percent_witness :
  Forall percent_free
    [KDigit 7; KOperator "+"; KDigit 3; KOperator "*"; KDot; KDigit 5;
     KToggleSign; KEvaluate; KEvaluate; KBackspace] /\
  Rev1.run
    [KDigit 7; KOperator "+"; KDigit 3; KOperator "*"; KDot; KDigit 5;
     KToggleSign; KEvaluate; KEvaluate; KBackspace]
  = forget
      (run
         [KDigit 7; KOperator "+"; KDigit 3; KOperator "*"; KDot; KDigit 5;
          KToggleSign; KEvaluate; KEvaluate; KBackspace]).
Proof.
  assert (H : Forall percent_free
                [KDigit 7; KOperator "+"; KDigit 3; KOperator "*"; KDot;
                 KDigit 5; KToggleSign; KEvaluate; KEvaluate; KBackspace])
    by (repeat constructor).
  split; [exact H|].
  exact (proj1 (revisions_agree_without_percent _ H)).
Defined.

(** With the percent key the revisions part: the earlier one writes the
    percent value into the display and [=] then shows that value alone. *)
Example revisions_differ_on_percent :
  Rev1.display (Rev1.run keys_200_plus_10_percent) = "20" /\
  Rev1.display (Rev1.evaluate (Rev1.run keys_200_plus_10_percent)) = "20" /\
  display (run keys_200_plus_10_percent) = "10" /\
  display (evaluate (run keys_200_plus_10_percent)) = "220".
Proof. vm_compute. repeat split; reflexivity. Qed.

(** X14: in the earlier revision [preview] and [evaluate] agree in every
    kind, percent included: in a non-error state with a preview, the
    [result] of the preview, formatted, is the display [evaluate] returns. *)
Theorem earlier_preview_agrees_with_evaluate (state : Rev1.State)
    (p : Preview) :
  Rev1.error state = false ->
  Rev1.preview state = Some p ->
  formatNumber (p_result p) = Rev1.display (Rev1.evaluate state) /\
  p_resultStr p = Rev1.display (Rev1.evaluate state) /\
  p_error p = Rev1.error (Rev1.evaluate state).
Proof.
  intros Herr Hp. unfold Rev1.preview in Hp. unfold Rev1.evaluate.
  rewrite Herr.
  destruct (truthy (Rev1.op state)) eqn:Hop;
    destruct (truthy (Rev1.rightLabel state)) eqn:Hlabel;
    cbn [andb negb] in *;
    try (injection Hp as <-; cbn; repeat split; reflexivity).
  - destruct (Rev1.lastOperand state) as [operand|]; [|discriminate].
    destruct (truthy (Rev1.lastOp state)); [|discriminate].
    injection Hp as <-. cbn. repeat split; reflexivity.
  - destruct (Rev1.lastOperand state) as [operand|]; [|discriminate].
    destruct (truthy (Rev1.lastOp state)); [|discriminate].
    injection Hp as <-. cbn. repeat split; reflexivity.
Qed.

Lemma earlier_preview_agrees_with_evaluate_witness :
  Rev1.error (Rev1.run keys_200_plus_10_percent) = false /\
  Rev1.preview (Rev1.run keys_200_plus_10_percent)
  = Some preview_200_plus_10_percent /\
  formatNumber (p_result preview_200_plus_10_percent)
  = Rev1.display (Rev1.evaluate (Rev1.run keys_200_plus_10_percent)).
Proof.
  assert (He : Rev1.error (Rev1.run keys_200_plus_10_percent) = false)
    by (vm_compute; reflexivity).
  assert (Hp : Rev1.preview (Rev1.run keys_200_plus_10_percent)
               = Some preview_200_plus_10_percent)
    by (vm_compute; reflexivity).
  split; [exact He|]. split; [exact Hp|].
  exact (proj1 (earlier_preview_agrees_with_evaluate
                  (Rev1.run keys_200_plus_10_percent)
                  preview_200_plus_10_percent He Hp)).
Defined.

(** * The UI shell *)

(** X15: a unary function applied outside its domain is flagged, whatever
    the math library: with [sqrt] pending on a negative display value,
    [recip] on zero, or [ln] or [log] on a value that is not positive,
    [onEqual] shows "Error", sets the error flag, logs the line
    [label(x) = Error], drops the pending function and keeps the operands of
    the state as they are. *)
Theorem unary_domain_error_is_flagged (M : Shell.MathLib) (sh : Shell.Shell)
    (fn : Shell.Unary) :
  Shell.pendingUnary sh = Some fn ->
  (fn = Shell.sqrt /\
   SFltb (Number (display (Shell.state sh))) zero = true) \/
  (fn = Shell.recip /\
   strict_eq (Number (display (Shell.state sh))) zero = true) \/
  ((fn = Shell.ln \/ fn = Shell.log) /\
   SFleb (Number (display (Shell.state sh))) zero = true) ->
  Shell.onEqual M sh
  = {| Shell.state :=
         {| display := "Error";
            prev := prev (Shell.state sh);
            op := op (Shell.state sh);
            overwrite := true;
            lastOp := lastOp (Shell.state sh);
            lastOperand := lastOperand (Shell.state sh);
            error := true;
            rightLabel := rightLabel (Shell.state sh);
            rightValue := rightValue (Shell.state sh) |};
       Shell.deg := Shell.deg sh;
       Shell.history :=
         (Shell.unaryLabels fn
            (formatNumber (Number (display (Shell.state sh))))
          ++ " = Error") :: Shell.history sh;
       Shell.pendingUnary := None |}.
Proof.
  intros Hpending Hdomain. unfold Shell.onEqual. rewrite Hpending.
  assert (Hy : Shell.unary_result M (Shell.deg sh) fn
                 (Number (display (Shell.state sh))) = Infinity).
  { unfold Shell.unary_result.
    destruct Hdomain as [[-> H] | [[-> H] | [[-> | ->] H]]];
      now rewrite H. }
  cbv zeta. rewrite Hy. reflexivity.
Qed.

Lemma unary_domain_error_is_flagged_witness :
  Shell.pendingUnary
    (Shell.session Shell.stub_lib
       [Shell.Digit 4; Shell.Sign; Shell.UnaryButton Shell.sqrt])
  = Some Shell.sqrt /\
  SFltb (Number "-4") zero = true /\
  Shell.onEqual Shell.stub_lib
    (Shell.session Shell.stub_lib
       [Shell.Digit 4; Shell.Sign; Shell.UnaryButton Shell.sqrt])
  = {| Shell.state :=
         {| display := "Error"; prev := None; op := None; overwrite := true;
            lastOp := None; lastOperand := None; error := true;
            rightLabel := None; rightValue := None |};
       Shell.deg := true;
       Shell.history := ["√(-4) = Error"];
       Shell.pendingUnary := None |}.
Proof.
  split; [reflexivity|]. split; [reflexivity|].
  exact (unary_domain_error_is_flagged Shell.stub_lib
           (Shell.session Shell.stub_lib
              [Shell.Digit 4; Shell.Sign; Shell.UnaryButton Shell.sqrt])
           Shell.sqrt eq_refl (or_introl (conj eq_refl eq_refl))).
Defined.

(** X16: the operator buttons swallow that error.  Under the same
    conditions, in a state without error flag or staged percent,
    [pickOperator] shows "Error" but leaves the error flag off, stages the
    operator with 0 as the left operand, and logs nothing. *)
Theorem operator_button_swallows_unary_error (M : Shell.MathLib)
    (sh : Shell.Shell) (fn : Shell.Unary) (o : string) :
  Shell.pendingUnary sh = Some fn ->
  error (Shell.state sh) = false ->
  rightLabel (Shell.state sh) = None ->
  (fn = Shell.sqrt /\
   SFltb (Number (display (Shell.state sh))) zero = true) \/
  (fn = Shell.recip /\
   strict_eq (Number (display (Shell.state sh))) zero = true) \/
  ((fn = Shell.ln \/ fn = Shell.log) /\
   SFleb (Number (display (Shell.state sh))) zero = true) ->
  Shell.pickOperator M sh o
  = {| Shell.state :=
         {| display := "Error";
            prev := Some zero;
            op := Some o;
            overwrite := true;
            lastOp := lastOp (Shell.state sh);
            lastOperand := lastOperand (Shell.state sh);
            error := false;
            rightLabel := None;
            rightValue := None |};
       Shell.deg := Shell.deg sh;
       Shell.history := Shell.history sh;
       Shell.pendingUnary := None |}.
Proof.
  intros Hpending Herr Hlabel Hdomain. unfold Shell.pickOperator.
  rewrite Hpending.
  assert (Hy : Shell.unary_result M (Shell.deg sh) fn
                 (Number (display (Shell.state sh))) = Infinity).
  { unfold Shell.unary_result.
    destruct Hdomain as [[-> H] | [[-> H] | [[-> | ->] H]]];
      now rewrite H. }
  cbv zeta. rewrite Hy.
  unfold setOperator, staged_or_display.
  cbn [error overwrite display rightLabel op prev lastOp lastOperand
       negb andb].
  rewrite Herr, Hlabel, andb_false_r. reflexivity.
Qed.

Lemma operator_button_swallows_unary_error_witness :
  Shell.pendingUnary
    (Shell.session Shell.stub_lib
       [Shell.Digit 4; Shell.Sign; Shell.UnaryButton Shell.sqrt])
  = Some Shell.sqrt /\
  SFltb (Number "-4") zero = true /\
  Shell.state
    (Shell.pickOperator Shell.stub_lib
       (Shell.session Shell.stub_lib
          [Shell.Digit 4; Shell.Sign; Shell.UnaryButton Shell.sqrt]) "+")
  = {| display := "Error"; prev := Some zero; op := Some "+";
       overwrite := true; lastOp := None; lastOperand := None;
       error := false; rightLabel := None; rightValue := None |}.
Proof.
  split; [reflexivity|]. split; [reflexivity|].
  exact (f_equal Shell.state
           (operator_button_swallows_unary_error Shell.stub_lib
              (Shell.session Shell.stub_lib
                 [Shell.Digit 4; Shell.Sign; Shell.UnaryButton Shell.sqrt])
              Shell.sqrt "+" eq_refl eq_refl eq_refl
              (or_introl (conj eq_refl eq_refl)))).
Defined.

(** X17: the history line of a standalone percent has no left operand and no
    operator to print.  With no unary function pending, in a non-error state
    with a staged percent and no pending operator, [onEqual] logs
    ["Error null " + b + " = " + b], [b] being the staged value formatted:
    [formatNumber(null)] is "Error" and [null] prints as "null". *)
Theorem standalone_percent_history_line (M : Shell.MathLib)
    (sh : Shell.Shell) :
  Shell.pendingUnary sh = None ->
  error (Shell.state sh) = false ->
  truthy (op (Shell.state sh)) = false ->
  truthy (rightLabel (Shell.state sh)) = true ->
  let b :=
    nullish (rightValue (Shell.state sh))
      (div (toNumber (display (Shell.state sh))) (of_Z 100)) in
  Shell.history (Shell.onEqual M sh)
  = ("Error null " ++ formatNumber b ++ " = " ++ formatNumber b)
    :: Shell.history sh /\
  display (Shell.state (Shell.onEqual M sh)) = formatNumber b.
Proof.
  intros Hpending Herr Hop Hlabel b. unfold Shell.onEqual.
  rewrite Hpending. cbv zeta. cbn [Shell.history Shell.state].
  unfold preview, evaluate. rewrite Herr, Hop, Hlabel. cbn [andb negb].
  split; reflexivity.
Qed.

Lemma standalone_percent_history_line_witness :
  Shell.pendingUnary
    (Shell.session Shell.stub_lib
       [Shell.Digit 5; Shell.Digit 0; Shell.Percent]) = None /\
  error (Shell.state
           (Shell.session Shell.stub_lib
              [Shell.Digit 5; Shell.Digit 0; Shell.Percent])) = false /\
  Shell.history
    (Shell.session Shell.stub_lib
       [Shell.Digit 5; Shell.Digit 0; Shell.Percent; Shell.Equal])
  = ["Error null 0.5 = 0.5"].
Proof.
  split; [reflexivity|]. split; [reflexivity|].
  exact (proj1 (standalone_percent_history_line Shell.stub_lib
                  (Shell.session Shell.stub_lib
                     [Shell.Digit 5; Shell.Digit 0; Shell.Percent])
                  eq_refl eq_refl eq_refl eq_refl)).
Defined.

(** X18: [preview] has no guard on the error flag.  With no unary function
    pending, [onEqual] on an error state resets the engine state, and when
    [preview] still finds an operation in the stale fields it logs a line
    whose result is the "0" of the fresh display. *)
Theorem equal_on_error_state_logs_zero (M : Shell.MathLib) (sh : Shell.Shell)
    (p : Preview) :
  Shell.pendingUnary sh = None ->
  error (Shell.state sh) = true ->
  preview (Shell.state sh) = Some p ->
  Shell.state (Shell.onEqual M sh) = createInitialState /\
  Shell.history (Shell.onEqual M sh)
  = (history_left_side p ++ " = 0") :: Shell.history sh.
Proof.
  intros Hpending Herr Hp. unfold Shell.onEqual. rewrite Hpending, Hp.
  cbv zeta. cbn [Shell.history Shell.state].
  unfold evaluate. rewrite Herr. split; [reflexivity|].
  unfold Shell.history_line, history_left_side.
  cbn [display createInitialState].
  now rewrite !append_assoc.
Qed.

Lemma equal_on_error_state_logs_zero_witness :
  Shell.pendingUnary (Shell.session Shell.stub_lib session_error_then_operator)
  = None /\
  error (Shell.state
           (Shell.session Shell.stub_lib session_error_then_operator))
  = true /\
  preview (Shell.state
             (Shell.session Shell.stub_lib session_error_then_operator))
  = Some preview_zero_plus_zero /\
  Shell.history
    (Shell.onEqual Shell.stub_lib
       (Shell.session Shell.stub_lib session_error_then_operator))
  = ["0 + 0 = 0"].
Proof.
  assert (Hp : preview
                 (Shell.state
                    (Shell.session Shell.stub_lib session_error_then_operator))
               = Some preview_zero_plus_zero) by (vm_compute; reflexivity).
  split; [reflexivity|]. split; [reflexivity|]. split; [exact Hp|].
  exact (proj2 (equal_on_error_state_logs_zero Shell.stub_lib
                  (Shell.session Shell.stub_lib session_error_then_operator)
                  preview_zero_plus_zero eq_refl eq_refl Hp)).
Defined.

(** X19: a unary evaluation sets the error flag anew.  With a unary
    function pending, [onEqual] shows the formatted result, sets the error
    flag exactly when the result is not finite, whatever the flag was, and
    keeps [prev], [op], [lastOp] and [lastOperand]: unlike every transition
    of the engine it does not reset an error state. *)
Theorem unary_evaluation_sets_the_flag_anew (M : Shell.MathLib)
    (sh : Shell.Shell) (fn : Shell.Unary) :
  Shell.pendingUnary sh = Some fn ->
  let y :=
    Shell.unary_result M (Shell.deg sh) fn
      (Number (display (Shell.state sh))) in
  display (Shell.state (Shell.onEqual M sh)) = formatNumber y /\
  error (Shell.state (Shell.onEqual M sh)) = negb (isFinite y) /\
  prev (Shell.state (Shell.onEqual M sh)) = prev (Shell.state sh) /\
  op (Shell.state (Shell.onEqual M sh)) = op (Shell.state sh) /\
  lastOp (Shell.state (Shell.onEqual M sh)) = lastOp (Shell.state sh) /\
  lastOperand (Shell.state (Shell.onEqual M sh))
  = lastOperand (Shell.state sh).
Proof.
  intros Hpending y. unfold Shell.onEqual. rewrite Hpending. cbv zeta.
  cbn [Shell.state display error prev op lastOp lastOperand].
  fold y. rewrite formatNumber_Error. repeat split.
Qed.

Lemma unary_evaluation_sets_the_flag_anew_witness :
  Shell.pendingUnary (Shell.session Shell.stub_lib session_error_then_sqrt_pi)
  = Some Shell.sqrt /\
  error (Shell.state
           (Shell.session Shell.stub_lib session_error_then_sqrt_pi))
  = true /\
  error (Shell.state
           (Shell.onEqual Shell.stub_lib
              (Shell.session Shell.stub_lib session_error_then_sqrt_pi)))
  = false /\
  op (Shell.state
        (Shell.onEqual Shell.stub_lib
           (Shell.session Shell.stub_lib session_error_then_sqrt_pi)))
  = Some "+" /\
  prev (Shell.state
          (Shell.onEqual Shell.stub_lib
             (Shell.session Shell.stub_lib session_error_then_sqrt_pi)))
  = None.
Proof.
  pose proof (unary_evaluation_sets_the_flag_anew Shell.stub_lib
                (Shell.session Shell.stub_lib session_error_then_sqrt_pi)
                Shell.sqrt eq_refl) as (_ & He & Hp & Ho & _).
  split; [reflexivity|]. split; [reflexivity|].
  split; [rewrite He; vm_compute; reflexivity|].
  split; [rewrite Ho; vm_compute; reflexivity|].
  rewrite Hp. vm_compute. reflexivity.
Defined.

(** The error flag without the word Error: [percent] of a first operand too
    large for the product raises the flag and leaves the display as typed. *)
Example percent_error_keeps_the_display :
  error (run ([KDigit 1; KDigit 0; KOperator "^"; KDigit 3; KDigit 0;
               KDigit 0; KOperator "+"] ++ sixteen_nines ++ [KPercent]))
  = true /\
  display (run ([KDigit 1; KDigit 0; KOperator "^"; KDigit 3; KDigit 0;
                 KDigit 0; KOperator "+"] ++ sixteen_nines ++ [KPercent]))
  = "9999999999999999".
Proof. vm_compute. split; reflexivity. Qed.

(** The finite operands of the engine's own runs are lost in the shell: the
    percent that overflows stores an infinite [rightValue] under the error
    flag, and the unary evaluation clears the flag and keeps the operand. *)
Example unary_evaluation_keeps_an_infinite_operand :
  error (Shell.state
           (Shell.session Shell.stub_lib session_percent_overflow_then_sqrt))
  = false /\
  rightValue
    (Shell.state
       (Shell.session Shell.stub_lib session_percent_overflow_then_sqrt))
  = Some Infinity.
Proof. vm_compute. split; reflexivity. Qed.
